(** * hcsshim: the WCOW utility VM (wcow_uvm.go)

    A shallow embedding of [CreateWCOWUVMSandbox],
    [UVMResourcesFromContainerSpec], [LocateWCOWUVMFolderFromLayerFolders]
    and [createWCOWv2UVM], and the properties of the hosting-VM
    specification that hold (or fail) on them.

    Conventions.
    - Go's fixed-width integers are [Z] with the wrap-around written out
      ([wrap64] for uint64 arithmetic, [int32] for the conversion to int32).
    - A Go pointer (or interface value) that may be nil is an [option];
      dereferencing [None] is the outcome [Panic].
    - A Go function returning [(T, error)] is an [outcome T]: [Ok] for a nil
      error, [Fail] for a non-nil one (the code always pairs a non-nil error
      with the zero value).
    - Calls into the host (filesystem, HCS) are answered by a [Host] and
      recorded, in program order, in a trace of [Event]s.
    - [logrus.Debugf] calls are not modelled: they do not affect any result. *)

From Stdlib Require Import ZArith String Ascii List Lia.
From stdpp Require Import base option gmap strings list.
Import ListNotations.

Local Open Scope string_scope.
Local Open Scope Z_scope.

(** ** Machine integers *)

(** Arithmetic on uint64 is modulo [2^64]. *)
Definition wrap64 (z : Z) : Z := z mod 2 ^ 64.

(** The conversion [int32(x)] of an unsigned value keeps the low 32 bits and
    reads them as a two's-complement number. *)
Definition int32 (z : Z) : Z := (z + 2 ^ 31) mod 2 ^ 32 - 2 ^ 31.

Definition is_uint64 (z : Z) : Prop := 0 <= z < 2 ^ 64.

(** ** Errors and outcomes *)

(** A Go [error] value: its message, and whether [os.IsNotExist] holds of
    it. *)
Record error := mk_error { Error : string; os_IsNotExist : bool }.

(** [fmt.Sprintf] restricted to the verb the file uses, [%s]. *)
Fixpoint fmt_Sprintf (format : string) (args : list string) : string :=
  match format with
  | EmptyString => EmptyString
  | String "%"%char (String "s"%char rest) =>
      match args with
      | a :: args' => a +:+ fmt_Sprintf rest args'
      | [] => "%!s(MISSING)" +:+ fmt_Sprintf rest []
      end
  | String c rest => String c (fmt_Sprintf rest args)
  end.

(** [fmt.Errorf] builds a plain error: [os.IsNotExist] is false of it. *)
Definition fmt_Errorf (format : string) (args : list string) : error :=
  {| Error := fmt_Sprintf format args; os_IsNotExist := false |}.

Inductive outcome (A : Type) : Type :=
| Ok (a : A)
| Fail (err : error)
| Panic.
Arguments Ok {A} a.
Arguments Fail {A} err.
Arguments Panic {A}.

(** [*p]: a nil dereference is a run-time panic. *)
Definition deref {A} (p : option A) : outcome A :=
  match p with
  | Some a => Ok a
  | None => Panic
  end.

(** [p != nil] *)
Definition notnil {A} (p : option A) : bool :=
  match p with
  | Some _ => true
  | None => false
  end.

(** [p != nil && p.f != nil]: the field [f] behind a pointer [p] that is
    compared with nil first; [p ~> f] is nil when [p] is. *)
Definition and_field {A B} (p : option A) (f : A -> option B) : option B :=
  match p with
  | Some a => f a
  | None => None
  end.
Infix "~>" := and_field (at level 50, left associativity).

Definition obind {A B} (m : outcome A) (k : A -> outcome B) : outcome B :=
  match m with
  | Ok a => k a
  | Fail e => Fail e
  | Panic => Panic
  end.

(** ** The OCI runtime specification (package specs) *)

(** Modelled from the spec: the declarations of package
    [github.com/opencontainers/runtime-spec/specs-go] are not among the
    sources; the records below carry the fields the functions read, with
    pointer-typed fields as options. Type names that coincide with a field
    name carry the suffix [_t]. *)
Module specs.

Record WindowsMemoryResources := { Limit : option Z (* *uint64 *) }.

Record WindowsCPUResources := {
  Count : option Z;   (* *uint64 *)
  Shares : option Z;  (* *uint16 *)
  Maximum : option Z  (* *uint16 *)
}.

Record WindowsStorageResources := {
  Iops : option Z;
  Bps : option Z;
  SandboxSize : option Z
}.

Record WindowsResources := {
  Memory : option WindowsMemoryResources;
  CPU : option WindowsCPUResources;
  Storage : option WindowsStorageResources
}.

Record WindowsNetwork := {
  EndpointList : list string;
  AllowUnqualifiedDNSQuery : bool;
  DNSSearchList : list string;
  NetworkSharedContainerName : string
}.

Record Windows_t := {
  LayerFolders : list string;
  Resources : option WindowsResources;
  CredentialSpec : option string;   (* interface{} *)
  Network : option WindowsNetwork
}.

Record Root_t := { Path : string; Readonly : bool }.

Record Mount := {
  Destination : string;
  Type_ : string;
  Source : string;
  Options : list string
}.

Record Linux_t := { CgroupsPath : string }.

Record Spec := {
  Hostname : string;
  Root : option Root_t;
  Mounts : list Mount;
  Linux : option Linux_t;
  Windows : option Windows_t
}.

End specs.

(** ** The HCS schema (packages schemaversion and hcsschemav2) *)

(** Modelled from the spec: package
    [github.com/Microsoft/hcsshim/schemaversion] is not among the sources;
    a schema version is a pair of numbers. *)
Module schemaversion.

Record SchemaVersion := { Major : Z; Minor : Z }.

End schemaversion.

(** Modelled from the spec: the declarations of package
    [github.com/Microsoft/hcsshim/schema/v2] are not among the sources; the
    records carry the fields [createWCOWv2UVM] sets. The field [Path] of a
    share is [SharePath], to tell it from that of an attachment. *)
Module hcsschemav2.

Record VirtualMachinesResourcesStorageAttachmentV2 := {
  Path : string;
  Type_ : string
}.

Record VirtualMachinesResourcesStorageScsiV2 := {
  Attachments : gmap string VirtualMachinesResourcesStorageAttachmentV2
}.

Record VirtualMachinesResourcesUefiBootEntryV2 := {
  DevicePath : string;
  DiskNumber : Z;
  UefiDevice : string
}.

Record VirtualMachinesResourcesUefiV2 := {
  BootThis : option VirtualMachinesResourcesUefiBootEntryV2
}.

Record VirtualMachinesResourcesChipsetV2 := {
  UEFI : option VirtualMachinesResourcesUefiV2
}.

Record VirtualMachinesResourcesComputeMemoryV2 := {
  Backing : string;
  Startup : Z;              (* int32 *)
  DirectFileMappingMB : Z
}.

Record VirtualMachinesResourcesComputeProcessorV2 := {
  Count : Z                 (* int32 *)
}.

Record VirtualMachinesResourcesComputeTopologyV2 := {
  Memory : option VirtualMachinesResourcesComputeMemoryV2;
  Processor : option VirtualMachinesResourcesComputeProcessorV2
}.

Record VirtualMachinesResourcesStorageVSmbShareV2 := {
  Flags : Z;
  Name : string;
  SharePath : string
}.

Record VirtualMachinesResourcesGuestInterfaceV2 := {
  ConnectToBridge : bool
}.

Record VirtualMachinesDevicesV2 := {
  SCSI : gmap string VirtualMachinesResourcesStorageScsiV2;
  VirtualSMBShares : list VirtualMachinesResourcesStorageVSmbShareV2;
  GuestInterface : option VirtualMachinesResourcesGuestInterfaceV2
}.

Record VirtualMachineV2 := {
  Chipset : option VirtualMachinesResourcesChipsetV2;
  ComputeTopology : option VirtualMachinesResourcesComputeTopologyV2;
  Devices : option VirtualMachinesDevicesV2
}.

Record ComputeSystemV2 := {
  Owner : string;
  SchemaVersion : option schemaversion.SchemaVersion;
  VirtualMachine : option VirtualMachineV2
}.

End hcsschemav2.

(** ** Values of the package itself *)

(** Modelled from the spec: the struct [createOptionsExInternal] is declared
    in another file of the package; these are the fields [createWCOWv2UVM]
    reads. [Spec] is a pointer; the options themselves are taken to be
    there, [createWCOWv2UVM] reading [coi.actualId] before anything else. *)
Record createOptionsExInternal := {
  Spec : option specs.Spec;
  actualId : string;
  actualOwner : string;
  actualSchemaVersion : option schemaversion.SchemaVersion
}.

(** Modelled from the spec: the struct [container] is declared in another
    file of the package; these are the two fields [createWCOWv2UVM] writes. *)
Record container := {
  scsiLocations_hostPath : nat -> nat -> string;
  operatingSystem : string
}.

(** ** The host

    What the code asks of its surroundings: the standard library
    ([filepath.Join], [os.Stat], [os.MkdirAll], [json.Marshal]) and the
    functions and constants of the package and of its schema packages that
    are declared in other files. A nil error is [None]. *)
Class Host := {
  numCPU : Z;
  filepath_Join : string -> string -> string;
  os_Stat : string -> option error;
  os_MkdirAll : string -> Z -> option error;
  CopyFile : string -> string -> bool -> option error;
  GrantVmAccess : string -> string -> option error;
  json_Marshal : hcsschemav2.ComputeSystemV2 -> string * option error;
  createContainer :
    string -> string -> schemaversion.SchemaVersion ->
    option container * option error;
  schemaversion_SchemaV20 : schemaversion.SchemaVersion;
  VsmbFlagReadOnly : Z;
  VsmbFlagPseudoOplocks : Z;
  VsmbFlagTakeBackupPrivilege : Z;
  VsmbFlagCacheIO : Z;
  VsmbFlagShareRead : Z
}.

(** The calls that reach outside the process, as they appear in a trace. *)
Inductive Event :=
| EvStat (name : string)
| EvMkdirAll (path : string) (perm : Z)
| EvCopyFile (src dst : string) (overwrite : bool)
| EvGrantVmAccess (vmid file : string)
| EvCreateContainer (id doc : string) (sv : schemaversion.SchemaVersion).

(** ** Computations: a trace of host calls and an outcome *)

Definition M (A : Type) : Type := list Event -> outcome A * list Event.

Definition ret {A} (a : A) : M A := fun t => (Ok a, t).
Definition fail {A} (e : error) : M A := fun t => (Fail e, t).
Definition lift {A} (o : outcome A) : M A := fun t => (o, t).

Definition bind {A B} (m : M A) (k : A -> M B) : M B :=
  fun t =>
    match m t with
    | (Ok a, t') => k a t'
    | (Fail e, t') => (Fail e, t')
    | (Panic, t') => (Panic, t')
    end.

(** A host call: log it, and continue with the host's answer. *)
Definition call {A} (ev : Event) (answer : A) : M A :=
  fun t => (Ok answer, (t ++ [ev])%list).

(** [if err != nil { return nil, wrap(err) }] around a callee. *)
Definition on_error {A} (m : M A) (wrap : error -> error) : M A :=
  fun t =>
    match m t with
    | (Fail e, t') => (Fail (wrap e), t')
    | r => r
    end.

(** [if err != nil { return nil, wrap(err) }] after a host call. *)
Definition check_err (err : option error) (wrap : error -> error) : M unit :=
  match err with
  | Some e => fail (wrap e)
  | None => ret tt
  end.

Notation "x <- m ;; k" := (bind m (fun x => k))
  (at level 100, m at next level, right associativity).
Notation "x <-! m ;; k" := (obind m (fun x => k))
  (at level 100, m at next level, right associativity).

(** Go's short-circuit [a && b] and [a || b] where evaluating [b] can
    panic. *)
Definition and_then (a : bool) (b : outcome bool) : outcome bool :=
  if a then b else Ok false.
Definition or_else (a : bool) (b : outcome bool) : outcome bool :=
  if a then Ok true else b.

(** [xs[i]]: an index out of range is a run-time panic. *)
Definition index {A} (xs : list A) (i : Z) : outcome A :=
  if i <? 0 then Panic
  else match xs !! Z.to_nat i with
       | Some x => Ok x
       | None => Panic
       end.

(** [len(xs)] *)
Definition len {A} (xs : list A) : Z := Z.of_nat (length xs).

Section Code.

Context `{host : Host}.

(** ** CreateWCOWUVMSandbox (lines 21-32) *)
Definition CreateWCOWUVMSandbox (imagePath destDirectory vmID : string)
  : M unit :=
  let sourceSandbox :=
    filepath_Join imagePath "UtilityVM\SystemTemplate.vhdx" in
  let targetSandbox := filepath_Join destDirectory "sandbox.vhdx" in
  err <- call (EvCopyFile sourceSandbox targetSandbox true)
              (CopyFile sourceSandbox targetSandbox true) ;;
  _ <- check_err err id ;;
  err <- call (EvGrantVmAccess vmID targetSandbox)
              (GrantVmAccess vmID targetSandbox) ;;
  _ <- check_err err id ;;
  ret tt.

(** ** UVMResourcesFromContainerSpec (lines 39-78)

    The returned [CPU.Count] points at the local [uvmCPUCount], so it
    reads the value that variable has at the end; [Memory.Limit] is set
    last, to [uvmMemoryBytes]. *)
Definition UVMResourcesFromContainerSpec (spec : option specs.Spec)
  : outcome specs.WindowsResources :=
  (* if spec == nil && spec.Linux != nil *)
  lcow <-! and_then (negb (notnil spec))
                    (s <-! deref spec ;; Ok (notnil (specs.Linux s))) ;;
  if lcow then
    Fail (fmt_Errorf
            "UVMResourcesFromContainerSpec not supported for LCOW yet" [])
  else
  (* if spec == nil || spec.Windows == nil *)
  invalid <-! or_else (negb (notnil spec))
                      (s <-! deref spec ;;
                       Ok (negb (notnil (specs.Windows s)))) ;;
  if invalid then Fail (fmt_Errorf "invalid spec" [])
  else
  s <-! deref spec ;;
  windows <-! deref (specs.Windows s) ;;
  let uvmCPUCount := 2 in
  let uvmMemoryMB := 512 in
  let uvmCPUCount := if numCPU =? 1 then 1 else uvmCPUCount in
  vars <-!
    match specs.Resources windows with
    | Some resources =>
        let uvmCPUCount :=
          match specs.CPU resources ~> specs.Count with
          | Some count => count
          | None => uvmCPUCount
          end in
        (* spec.Windows.Resources.Memory.Limit: Memory is not checked *)
        memory <-! deref (specs.Memory resources) ;;
        let uvmMemoryMB :=
          match specs.Limit memory with
          | Some limit => limit / 1024 / 1024
          | None => uvmMemoryMB
          end in
        Ok (uvmCPUCount, uvmMemoryMB)
    | None => Ok (uvmCPUCount, uvmMemoryMB)
    end ;;
  let '(uvmCPUCount, uvmMemoryMB) := vars in
  (* Add 256MB and round up to nearest 512MB *)
  let uvmMemoryMB := wrap64 (uvmMemoryMB + 256) in
  let uvmMemoryMB :=
    if 0 <? uvmMemoryMB mod 512
    then wrap64 (uvmMemoryMB + wrap64 (512 - uvmMemoryMB mod 512))
    else uvmMemoryMB in
  let uvmMemoryBytes := wrap64 (wrap64 (uvmMemoryMB * 1024) * 1024) in
  Ok {| specs.Memory := Some {| specs.Limit := Some uvmMemoryBytes |};
        specs.CPU := Some {| specs.Count := Some uvmCPUCount;
                             specs.Shares := None;
                             specs.Maximum := None |};
        specs.Storage := None |}.

(** ** LocateWCOWUVMFolderFromLayerFolders (lines 85-104) *)

(** The [for ... range] loop; the result is [(uvmFolder, index)] at its
    exit, [uvmFolder] being still [""] when no iteration broke out. *)
Fixpoint LocateWCOWUVMFolderFromLayerFolders_loop
    (layerFolders : list string) (index : Z) : M (string * Z) :=
  match layerFolders with
  | [] => ret ("", index)
  | layerFolder :: rest =>
      let name := filepath_Join layerFolder "UtilityVM" in
      err <- call (EvStat name) (os_Stat name) ;;
      match err with
      | None => ret (layerFolder, index)              (* break *)
      | Some e =>
          if negb (os_IsNotExist e) then fail e
          else LocateWCOWUVMFolderFromLayerFolders_loop rest (index + 1)
      end
  end.

Definition LocateWCOWUVMFolderFromLayerFolders (layerFolders : list string)
  : M string :=
  exit <- LocateWCOWUVMFolderFromLayerFolders_loop layerFolders 0 ;;
  let '(uvmFolder, _) := exit in
  if bool_decide (uvmFolder = "") then
    fail (fmt_Errorf "utility VM folder could not be found in layers" [])
  else ret uvmFolder.

(** ** createWCOWv2UVM (lines 106-229) *)

(** Lines 109-136: the checks of the specification for a hosting
    system. The first read, [coi.Spec.Windows.LayerFolders], dereferences
    [coi.Spec] and [coi.Spec.Windows]; the later reads go through the same
    two pointers. *)
Definition createWCOWv2UVM_checks (coi : createOptionsExInternal)
  : outcome unit :=
  let iocis := "invalid OCI spec:" in
  spec <-! deref (Spec coi) ;;
  windows <-! deref (specs.Windows spec) ;;
  if len (specs.LayerFolders windows) <? 2 then
    Fail (fmt_Errorf "%s Windows.LayerFolders must have length of at least 2 for a hosting system" [iocis])
  else if Z.of_nat (String.length (specs.Hostname spec)) >? 0 then
    Fail (fmt_Errorf "%s Hostname cannot be set for a hosting system" [iocis])
  else if notnil (specs.Resources windows ~> specs.CPU ~> specs.Shares) then
    Fail (fmt_Errorf "%s Windows.Resources.CPU.Shares must not be set for a hosting system" [iocis])
  else if notnil (specs.Resources windows ~> specs.CPU ~> specs.Maximum) then
    Fail (fmt_Errorf "%s Windows.Resources.CPU.Maximum must not be set for a hosting system" [iocis])
  else if notnil (specs.Root spec) then
    Fail (fmt_Errorf "%s Root must not be set for a hosting system" [iocis])
  else if notnil (specs.Resources windows ~> specs.Storage) then
    Fail (fmt_Errorf "%s Windows.Resources.Storage must not be set for a hosting system" [iocis])
  else if notnil (specs.CredentialSpec windows) then
    Fail (fmt_Errorf "%s Windows.CredentialSpec must not be set for a hosting system" [iocis])
  else if notnil (specs.Network windows) then
    Fail (fmt_Errorf "%s Windows.Network must not be set for a hosting system" [iocis])
  else if negb (0 =? len (specs.Mounts spec)) then
    Fail (fmt_Errorf "%s Mounts must not be set for a hosting system" [iocis])
  else Ok tt.

(** Lines 167-179: [(memory, processors)] for the utility VM. [windows] is
    [*coi.Spec.Windows], which line 110 has dereferenced already. *)
Definition createWCOWv2UVM_resources (windows : specs.Windows_t) : Z * Z :=
  let memory := int32 1024 in
  let processors := int32 2 in
  let processors := if numCPU =? 1 then 1 else processors in
  match specs.Resources windows with
  | Some resources =>
      let memory :=
        match specs.Memory resources ~> specs.Limit with
        | Some limit => int32 (limit / 1024 / 1024)
        | None => memory
        end in
      let processors :=
        match specs.CPU resources ~> specs.Count with
        | Some count => int32 count
        | None => processors
        end in
      (memory, processors)
  | None => (memory, processors)
  end.

(** Lines 180-215: the document [uvm]. *)
Definition createWCOWv2UVM_uvm (coi : createOptionsExInternal)
    (uvmFolder : string)
    (scsi : gmap string hcsschemav2.VirtualMachinesResourcesStorageScsiV2)
    (memory processors : Z) : hcsschemav2.ComputeSystemV2 :=
  {| hcsschemav2.Owner := actualOwner coi;
     hcsschemav2.SchemaVersion := actualSchemaVersion coi;
     hcsschemav2.VirtualMachine := Some
       {| hcsschemav2.Chipset := Some
            {| hcsschemav2.UEFI := Some
                 {| hcsschemav2.BootThis := Some
                      {| hcsschemav2.DevicePath :=
                           "\EFI\Microsoft\Boot\bootmgfw.efi";
                         hcsschemav2.DiskNumber := 0;
                         hcsschemav2.UefiDevice := "VMBFS" |} |} |};
          hcsschemav2.ComputeTopology := Some
            {| hcsschemav2.Memory := Some
                 {| hcsschemav2.Backing := "Virtual";
                    hcsschemav2.Startup := memory;
                    hcsschemav2.DirectFileMappingMB := 1024 |};
               hcsschemav2.Processor := Some
                 {| hcsschemav2.Count := processors |} |};
          hcsschemav2.Devices := Some
            {| hcsschemav2.SCSI := scsi;
               hcsschemav2.VirtualSMBShares :=
                 [ {| hcsschemav2.Flags :=
                        Z.lor (Z.lor (Z.lor (Z.lor VsmbFlagReadOnly
                                                   VsmbFlagPseudoOplocks)
                                            VsmbFlagTakeBackupPrivilege)
                                     VsmbFlagCacheIO)
                              VsmbFlagShareRead;
                      hcsschemav2.Name := "os";
                      hcsschemav2.SharePath :=
                        filepath_Join uvmFolder "UtilityVM\Files" |} ];
               hcsschemav2.GuestInterface := Some
                 {| hcsschemav2.ConnectToBridge := true |} |} |} |}.

Definition createWCOWv2UVM (coi : createOptionsExInternal) : M container :=
  _ <- lift (createWCOWv2UVM_checks coi) ;;
  spec <- lift (deref (Spec coi)) ;;
  windows <- lift (deref (specs.Windows spec)) ;;
  uvmFolder <-
    on_error (LocateWCOWUVMFolderFromLayerFolders (specs.LayerFolders windows))
             (fun err => fmt_Errorf
                "failed to locate utility VM folder from layer folders: %s"
                [Error err]) ;;
  (* Create the sandbox in the top-most layer folder *)
  sandboxFolder <-
    lift (index (specs.LayerFolders windows)
                (len (specs.LayerFolders windows) - 1)) ;;
  (* Create the directory if it doesn't exist *)
  err <- call (EvStat sandboxFolder) (os_Stat sandboxFolder) ;;
  _ <- (if from_option os_IsNotExist false err then
          err <- call (EvMkdirAll sandboxFolder 511)   (* 0777 *)
                      (os_MkdirAll sandboxFolder 511) ;;
          check_err err (fun err => fmt_Errorf
            "failed to create utility VM sandbox folder: %s" [Error err])
        else ret tt) ;;
  (* Create sandbox.vhdx in the sandbox folder based on the template *)
  _ <- on_error (CreateWCOWUVMSandbox uvmFolder sandboxFolder (actualId coi))
                (fun err => fmt_Errorf "failed to create UVM sandbox: %s"
                                       [Error err]) ;;
  let attachments : gmap string _ :=
    <["0" := {| hcsschemav2.Path := filepath_Join sandboxFolder "sandbox.vhdx";
                hcsschemav2.Type_ := "VirtualDisk" |}]> ∅ in
  let scsi : gmap string _ :=
    <["0" := {| hcsschemav2.Attachments := attachments |}]> ∅ in
  let '(memory, processors) := createWCOWv2UVM_resources windows in
  let uvm := createWCOWv2UVM_uvm coi uvmFolder scsi memory processors in
  let '(uvmb, err) := json_Marshal uvm in
  _ <- check_err err id ;;
  created <-
    call (EvCreateContainer (actualId coi) uvmb schemaversion_SchemaV20)
         (createContainer (actualId coi) uvmb schemaversion_SchemaV20) ;;
  let '(uvmContainer, err) := created in
  _ <- check_err err id ;;
  (* uvmContainer.( *container ): the assertion panics on a nil interface *)
  c <- lift (deref uvmContainer) ;;
  let hostPath00 :=
    from_option hcsschemav2.Path "" (attachments !! "0") in
  ret {| scsiLocations_hostPath := fun i j =>
           match i, j with
           | O, O => hostPath00
           | _, _ => scsiLocations_hostPath c i j
           end;
         operatingSystem := "windows" |}.

End Code.

(** ** The specification's reading of the derived quantities *)

Definition MB : Z := 1024 * 1024.

(** "Round up to the next multiple of 512". *)
Definition round_up_512 (x : Z) : Z := (x + 511) / 512 * 512.

(** The memory limit a container specification carries, if any:
    [Windows.Resources.Memory.Limit]. *)
Definition memory_limit (windows : specs.Windows_t) : option Z :=
  specs.Resources windows ~> specs.Memory ~> specs.Limit.

(** The processor count a container specification carries, if any:
    [Windows.Resources.CPU.Count]. *)
Definition cpu_count (windows : specs.Windows_t) : option Z :=
  specs.Resources windows ~> specs.CPU ~> specs.Count.

(** Capacity planning, in the specification's words: the limit in MB if
    present, else 0; plus 256; rounded up to a multiple of 512. *)
Definition claimed_capacity_MB (limit : option Z) : Z :=
  round_up_512 (from_option (fun bytes => bytes / MB) 0 limit + 256).

(** The same with the base the code starts from when there is no limit. *)
Definition capacity_MB (limit : option Z) : Z :=
  round_up_512 (from_option (fun bytes => bytes / MB) 512 limit + 256).

(** The VM launch, in the specification's words: the limit divided by
    1024*1024 if present, else 1024. *)
Definition claimed_launch_MB (limit : option Z) : Z :=
  from_option (fun bytes => bytes / MB) 1024 limit.

(** The checks return a result, in the specification's words: acceptance or
    a rejection reason. *)
Definition returns_a_result (o : outcome unit) : Prop :=
  o = Ok tt \/ exists e, o = Fail e.

(** The processor count when the specification gives none. *)
Definition default_processors `{Host} : Z := if numCPU =? 1 then 1 else 2.

(** The shape on which [UVMResourcesFromContainerSpec] reads
    [Resources.Memory.Limit] without a panic: a present resource block has a
    memory block. *)
Definition memory_block_present (windows : specs.Windows_t) : Prop :=
  forall resources,
    specs.Resources windows = Some resources ->
    specs.Memory resources <> None.

(** ** The specification's reading of the hosting-system checks *)

(** What makes a specification unfit for a hosting system, in the order in
    which [createWCOWv2UVM] looks for it. *)
Inductive Violation :=
| VLayerFolders | VHostname | VCPUShares | VCPUMaximum | VRoot
| VStorage | VCredentialSpec | VNetwork | VMounts.

Definition violations : list Violation :=
  [VLayerFolders; VHostname; VCPUShares; VCPUMaximum; VRoot;
   VStorage; VCredentialSpec; VNetwork; VMounts].

Definition violates (v : Violation)
    (spec : specs.Spec) (windows : specs.Windows_t) : bool :=
  match v with
  | VLayerFolders => len (specs.LayerFolders windows) <? 2
  | VHostname => negb (bool_decide (specs.Hostname spec = ""))
  | VCPUShares =>
      notnil (specs.Resources windows ~> specs.CPU ~> specs.Shares)
  | VCPUMaximum =>
      notnil (specs.Resources windows ~> specs.CPU ~> specs.Maximum)
  | VRoot => notnil (specs.Root spec)
  | VStorage => notnil (specs.Resources windows ~> specs.Storage)
  | VCredentialSpec => notnil (specs.CredentialSpec windows)
  | VNetwork => notnil (specs.Network windows)
  | VMounts => match specs.Mounts spec with [] => false | _ :: _ => true end
  end.

(** The first violation in the order of the checks, if there is one. *)
Definition first_violation
    (spec : specs.Spec) (windows : specs.Windows_t) : option Violation :=
  find (fun v => violates v spec windows) violations.

(** A specification fit for a hosting system, in the specification's
    words. *)
Definition hosting_conditions
    (spec : specs.Spec) (windows : specs.Windows_t) : Prop :=
  2 <= len (specs.LayerFolders windows) /\
  specs.Hostname spec = "" /\
  specs.Resources windows ~> specs.CPU ~> specs.Shares = None /\
  specs.Resources windows ~> specs.CPU ~> specs.Maximum = None /\
  specs.Root spec = None /\
  specs.Resources windows ~> specs.Storage = None /\
  specs.CredentialSpec windows = None /\
  specs.Network windows = None /\
  specs.Mounts spec = [].

(** The field a violation is about. *)
Definition field_name (v : Violation) : string :=
  match v with
  | VLayerFolders => "Windows.LayerFolders"
  | VHostname => "Hostname"
  | VCPUShares => "Windows.Resources.CPU.Shares"
  | VCPUMaximum => "Windows.Resources.CPU.Maximum"
  | VRoot => "Root"
  | VStorage => "Windows.Resources.Storage"
  | VCredentialSpec => "Windows.CredentialSpec"
  | VNetwork => "Windows.Network"
  | VMounts => "Mounts"
  end.

(** The error a violation is rejected with. *)
Definition rejection (v : Violation) : error :=
  {| Error :=
       match v with
       | VLayerFolders => "invalid OCI spec: Windows.LayerFolders must have length of at least 2 for a hosting system"
       | VHostname => "invalid OCI spec: Hostname cannot be set for a hosting system"
       | VCPUShares => "invalid OCI spec: Windows.Resources.CPU.Shares must not be set for a hosting system"
       | VCPUMaximum => "invalid OCI spec: Windows.Resources.CPU.Maximum must not be set for a hosting system"
       | VRoot => "invalid OCI spec: Root must not be set for a hosting system"
       | VStorage => "invalid OCI spec: Windows.Resources.Storage must not be set for a hosting system"
       | VCredentialSpec => "invalid OCI spec: Windows.CredentialSpec must not be set for a hosting system"
       | VNetwork => "invalid OCI spec: Windows.Network must not be set for a hosting system"
       | VMounts => "invalid OCI spec: Mounts must not be set for a hosting system"
       end;
     os_IsNotExist := false |}.

(** [field] occurs in [message]. *)
Definition mentions (field message : string) : bool :=
  notnil (String.index 0 field message).

(** Lines 67-72 of [UVMResourcesFromContainerSpec] as a function of the
    value [uvmMemoryMB] has at line 66. *)
Definition uvmMemoryBytes (uvmMemoryMB : Z) : Z :=
  let uvmMemoryMB := wrap64 (uvmMemoryMB + 256) in
  let uvmMemoryMB :=
    if 0 <? uvmMemoryMB mod 512
    then wrap64 (uvmMemoryMB + wrap64 (512 - uvmMemoryMB mod 512))
    else uvmMemoryMB in
  wrap64 (wrap64 (uvmMemoryMB * 1024) * 1024).

(** The "not found" error of the scan. *)
Definition not_found : error :=
  fmt_Errorf "utility VM folder could not be found in layers" [].

(** ** The specification's reading of the layer scan *)
Section Layers.

Context `{host : Host}.

(** The name the scan examines for a layer folder. *)
Definition marker (layerFolder : string) : string :=
  filepath_Join layerFolder "UtilityVM".

(** The boot-image marker exists under the folder: [os.Stat] succeeds. *)
Definition marker_exists (layerFolder : string) : Prop :=
  os_Stat (marker layerFolder) = None.

(** The check of the folder reports "does not exist". *)
Definition marker_absent (layerFolder : string) : Prop :=
  exists e, os_Stat (marker layerFolder) = Some e /\ os_IsNotExist e = true.

(** The first folder, in input order, under which the marker exists. *)
Definition first_with_marker (layerFolders : list string) : option string :=
  find (fun layerFolder => negb (notnil (os_Stat (marker layerFolder))))
       layerFolders.

(** The host calls of a scan that examines exactly these folders. *)
Definition scan_of (layerFolders : list string) : list Event :=
  map (fun layerFolder => EvStat (marker layerFolder)) layerFolders.

(** The scan in the specification's words: the first folder with the
    marker is returned, and "not found" when there is none. *)
Definition claimed_Locate (layerFolders : list string) : Prop :=
  fst (LocateWCOWUVMFolderFromLayerFolders layerFolders [])
  = match first_with_marker layerFolders with
    | Some layerFolder => Ok layerFolder
    | None => Fail not_found
    end.

End Layers.

(** ** Example hosts and specifications *)
Module Examples.

(** Joining clean path elements with the Windows separator. *)
Definition join (dir name : string) : string :=
  if bool_decide (dir = "") then name else dir +:+ "\" +:+ name.

Definition ERROR_FILE_NOT_FOUND : error :=
  {| Error := "The system cannot find the file specified.";
     os_IsNotExist := true |}.

Definition ERROR_ACCESS_DENIED : error :=
  {| Error := "Access is denied."; os_IsNotExist := false |}.

(** A host with [ncpu] logical processors on which exactly the paths
    [present] exist, the paths [denied] cannot be examined, and every other
    request succeeds. *)
Definition example_host (ncpu : Z) (present denied : list string) : Host :=
  {| numCPU := ncpu;
     filepath_Join := join;
     os_Stat := fun name =>
       if bool_decide (name ∈ denied) then Some ERROR_ACCESS_DENIED
       else if bool_decide (name ∈ present) then None
       else Some ERROR_FILE_NOT_FOUND;
     os_MkdirAll := fun _ _ => None;
     CopyFile := fun _ _ _ => None;
     GrantVmAccess := fun _ _ => None;
     json_Marshal := fun uvm => ("{}", None);
     createContainer := fun _ _ _ =>
       (Some {| scsiLocations_hostPath := fun _ _ => "";
                operatingSystem := "" |}, None);
     schemaversion_SchemaV20 :=
       {| schemaversion.Major := 2; schemaversion.Minor := 0 |};
     VsmbFlagReadOnly := 1;
     VsmbFlagPseudoOplocks := 8192;
     VsmbFlagTakeBackupPrivilege := 16;
     VsmbFlagCacheIO := 4;
     VsmbFlagShareRead := 2 |}.

Definition windows_with (layers : list string)
    (resources : option specs.WindowsResources) : specs.Windows_t :=
  {| specs.LayerFolders := layers;
     specs.Resources := resources;
     specs.CredentialSpec := None;
     specs.Network := None |}.

Definition spec_with (linux : option specs.Linux_t)
    (windows : option specs.Windows_t) : specs.Spec :=
  {| specs.Hostname := "";
     specs.Root := None;
     specs.Mounts := [];
     specs.Linux := linux;
     specs.Windows := windows |}.

Definition resources_with (memory : option specs.WindowsMemoryResources)
    (count : option Z) : specs.WindowsResources :=
  {| specs.Memory := memory;
     specs.CPU := Some {| specs.Count := count;
                          specs.Shares := None;
                          specs.Maximum := None |};
     specs.Storage := None |}.

Definition options_for (spec : option specs.Spec)
  : createOptionsExInternal :=
  {| Spec := spec;
     actualId := "uvm-1";
     actualOwner := "docker";
     actualSchemaVersion :=
       Some {| schemaversion.Major := 2; schemaversion.Minor := 0 |} |}.

Definition layers : list string :=
  ["C:\layers\A"; "C:\layers\B"; "C:\layers\sandbox"].

(** A host whose working directory has a [UtilityVM] entry, as layer B
    has. *)
Definition host_cwd : Host :=
  example_host 2 ["UtilityVM"; "C:\layers\B\UtilityVM"] [].

(** A host on which layer A cannot be examined. *)
Definition host_denied : Host :=
  example_host 2 ["C:\layers\B\UtilityVM"] ["C:\layers\A\UtilityVM"].


(** Windows sections with a memory limit, with a memory block without
    limit, with a CPU count, and with a resource block without memory
    block. *)
Definition windows_limit (bytes : Z) : specs.Windows_t :=
  windows_with layers
    (Some (resources_with (Some {| specs.Limit := Some bytes |}) None)).

Definition windows_no_limit : specs.Windows_t :=
  windows_with layers
    (Some (resources_with (Some {| specs.Limit := None |}) None)).


Definition windows_no_memory : specs.Windows_t :=
  windows_with layers (Some (resources_with None None)).

(** A specification with both a Linux and a Windows section. *)
Definition spec_lcow : specs.Spec :=
  spec_with (Some {| specs.CgroupsPath := "" |})
            (Some (windows_with layers None)).

(** Two processors; only layer B carries a boot image. *)
Definition host2 : Host :=
  example_host 2 ["C:\layers\B\UtilityVM"; "C:\layers\sandbox"] [].

End Examples.


(** ** The steps of [createWCOWv2UVM] after the layer scan *)
Section Steps.

Context `{host : Host}.

(** The sandbox disk of a sandbox folder (lines 23 and 162). *)
Definition sandbox_vhdx (sandboxFolder : string) : string :=
  filepath_Join sandboxFolder "sandbox.vhdx".

(** The template of a boot-image folder (line 22). *)
Definition system_template (uvmFolder : string) : string :=
  filepath_Join uvmFolder "UtilityVM\SystemTemplate.vhdx".

(** Lines 160-215: the document built for a Windows section, a boot-image
    folder and a sandbox folder. *)
Definition uvm_document (coi : createOptionsExInternal)
    (windows : specs.Windows_t) (uvmFolder sandboxFolder : string)
  : hcsschemav2.ComputeSystemV2 :=
  let attachments : gmap string _ :=
    <["0" := {| hcsschemav2.Path := filepath_Join sandboxFolder "sandbox.vhdx";
                hcsschemav2.Type_ := "VirtualDisk" |}]> ∅ in
  let scsi : gmap string _ :=
    <["0" := {| hcsschemav2.Attachments := attachments |}]> ∅ in
  createWCOWv2UVM_uvm coi uvmFolder scsi
    (fst (createWCOWv2UVM_resources windows))
    (snd (createWCOWv2UVM_resources windows)).

(** Whether line 148 finds the sandbox folder missing. *)
Definition sandbox_missing (sandboxFolder : string) : bool :=
  from_option os_IsNotExist false (os_Stat sandboxFolder).

(** The host calls of lines 148-153. *)
Definition folder_events (sandboxFolder : string) : list Event :=
  EvStat sandboxFolder ::
  (if sandbox_missing sandboxFolder
   then [EvMkdirAll sandboxFolder 511] else []).

(** The answer of [os.MkdirAll], when it is called. *)
Definition folder_error (sandboxFolder : string) : option error :=
  if sandbox_missing sandboxFolder
  then os_MkdirAll sandboxFolder 511 else None.

Definition copy_event (uvmFolder sandboxFolder : string) : Event :=
  EvCopyFile (system_template uvmFolder) (sandbox_vhdx sandboxFolder) true.

Definition grant_event (coi : createOptionsExInternal)
    (sandboxFolder : string) : Event :=
  EvGrantVmAccess (actualId coi) (sandbox_vhdx sandboxFolder).

Definition create_event (coi : createOptionsExInternal) (uvmb : string)
  : Event :=
  EvCreateContainer (actualId coi) uvmb schemaversion_SchemaV20.

(** Lines 226-227: the handle with the sandbox disk recorded in slot
    [0][0] and marked as a Windows guest. *)
Definition finished (c : container) (path : string) : container :=
  {| scsiLocations_hostPath := fun i j =>
       match i, j with
       | O, O => path
       | _, _ => scsiLocations_hostPath c i j
       end;
     operatingSystem := "windows" |}.

End Steps.

(** ** Hosts on which a step fails *)
Module Failures.

Import Examples.

(** As [example_host] with two processors, with the given answers of
    [os.MkdirAll], [CopyFile], [GrantVmAccess], [json.Marshal] and
    [createContainer]. *)
Definition failing_host (present denied : list string)
    (mkdir copy grant marshal create : option error) : Host :=
  {| numCPU := 2;
     filepath_Join := join;
     os_Stat := fun name =>
       if bool_decide (name ∈ denied) then Some ERROR_ACCESS_DENIED
       else if bool_decide (name ∈ present) then None
       else Some ERROR_FILE_NOT_FOUND;
     os_MkdirAll := fun _ _ => mkdir;
     CopyFile := fun _ _ _ => copy;
     GrantVmAccess := fun _ _ => grant;
     json_Marshal := fun uvm => ("{}", marshal);
     createContainer := fun _ _ _ =>
       match create with
       | Some e => (None, Some e)
       | None => (Some {| scsiLocations_hostPath := fun _ _ => "";
                          operatingSystem := "" |}, None)
       end;
     schemaversion_SchemaV20 :=
       {| schemaversion.Major := 2; schemaversion.Minor := 0 |};
     VsmbFlagReadOnly := 1;
     VsmbFlagPseudoOplocks := 8192;
     VsmbFlagTakeBackupPrivilege := 16;
     VsmbFlagCacheIO := 4;
     VsmbFlagShareRead := 2 |}.

Definition ERROR_DISK_FULL : error :=
  {| Error := "There is not enough space on the disk.";
     os_IsNotExist := false |}.

(** Layer B carries the boot image and the sandbox folder does not exist
    yet. *)
Definition host_fresh (mkdir copy grant marshal create : option error)
  : Host :=
  failing_host ["C:\layers\B\UtilityVM"] [] mkdir copy grant marshal create.

(** No layer carries a boot image. *)
Definition host_no_image : Host :=
  failing_host [] [] None None None None None.

(** A hosting specification over [layers], and its options. *)
Definition hosting_windows : specs.Windows_t := windows_with layers None.

Definition hosting_spec : specs.Spec := spec_with None (Some hosting_windows).

Definition hosting_options : createOptionsExInternal :=
  options_for (Some hosting_spec).

(** A specification with a hostname and no Windows section. *)
Definition spec_hostname_no_windows : specs.Spec :=
  {| specs.Hostname := "uvm-host";
     specs.Root := None;
     specs.Mounts := [];
     specs.Linux := None;
     specs.Windows := None |}.


(** A rendering of a document that shows the paths of its shares and of
    its first attachment. *)
Definition render (uvm : hcsschemav2.ComputeSystemV2) : string :=
  match hcsschemav2.VirtualMachine uvm ~> hcsschemav2.Devices with
  | Some devices =>
      String.concat ";"
        (map hcsschemav2.SharePath (hcsschemav2.VirtualSMBShares devices))
      +:+ "|" +:+
      from_option hcsschemav2.Path ""
        ((hcsschemav2.SCSI devices !! "0")
           ~> (fun scsi => hcsschemav2.Attachments scsi !! "0"))
  | None => ""
  end.

(** As [host2], with [json.Marshal] answering the rendering of the
    document. *)
Definition host_render : Host :=
  {| numCPU := 2;
     filepath_Join := join;
     os_Stat := fun name =>
       if bool_decide (name ∈ ["C:\layers\B\UtilityVM"; "C:\layers\sandbox"])
       then None else Some ERROR_FILE_NOT_FOUND;
     os_MkdirAll := fun _ _ => None;
     CopyFile := fun _ _ _ => None;
     GrantVmAccess := fun _ _ => None;
     json_Marshal := fun uvm => (render uvm, None);
     createContainer := fun _ _ _ =>
       (Some {| scsiLocations_hostPath := fun _ _ => "";
                operatingSystem := "" |}, None);
     schemaversion_SchemaV20 :=
       {| schemaversion.Major := 2; schemaversion.Minor := 0 |};
     VsmbFlagReadOnly := 1;
     VsmbFlagPseudoOplocks := 8192;
     VsmbFlagTakeBackupPrivilege := 16;
     VsmbFlagCacheIO := 4;
     VsmbFlagShareRead := 2 |}.

(** The events of the scan that finds layer B. *)
Definition scan_B : list Event :=
  [EvStat "C:\layers\A\UtilityVM"; EvStat "C:\layers\B\UtilityVM"].

End Failures.

(** * Properties *)

(** ** Integer arithmetic *)
Section Arithmetic.

Lemma round_up_512_multiple x : round_up_512 x mod 512 = 0.
Proof. unfold round_up_512. apply Z_mod_mult. Qed.

Lemma round_up_512_bounds x : x <= round_up_512 x < x + 512.
Proof.
  unfold round_up_512.
  pose proof (Z.div_mod (x + 511) 512 ltac:(lia)) as E.
  pose proof (Z.mod_pos_bound (x + 511) 512 ltac:(lia)) as B.
  lia.
Qed.

(** Lines 69-71 compute [round_up_512]. *)
Lemma round_up_512_code x :
  (if 0 <? x mod 512 then x + (512 - x mod 512) else x) = round_up_512 x.
Proof.
  unfold round_up_512.
  pose proof (Z.div_mod x 512 ltac:(lia)) as E.
  pose proof (Z.mod_pos_bound x 512 ltac:(lia)) as B.
  destruct (0 <? x mod 512) eqn:C.
  - apply Z.ltb_lt in C.
    replace (x + 511) with ((x / 512 + 1) * 512 + (x mod 512 - 1)) by lia.
    rewrite Z.div_add_l by lia.
    rewrite (Z.div_small (x mod 512 - 1) 512) by lia. lia.
  - apply Z.ltb_ge in C.
    replace (x + 511) with (x / 512 * 512 + 511) by lia.
    rewrite Z.div_add_l by lia.
    rewrite (Z.div_small 511 512) by lia. lia.
Qed.

Lemma wrap64_small z : is_uint64 z -> wrap64 z = z.
Proof. intros ?. apply Z.mod_small. assumption. Qed.

Lemma wrap64_mul_MB z : wrap64 (wrap64 (z * 1024) * 1024) = wrap64 (z * MB).
Proof.
  unfold wrap64, MB. rewrite Z.mul_mod_idemp_l by lia.
  f_equal. lia.
Qed.

Lemma MB_quotient bytes : bytes / 1024 / 1024 = bytes / MB.
Proof. unfold MB. rewrite Z.div_div by lia. reflexivity. Qed.

Lemma MB_quotient_bounds bytes :
  is_uint64 bytes -> 0 <= bytes / MB < 2 ^ 44.
Proof.
  unfold is_uint64, MB. intros [Hlo Hhi]. split.
  - apply Z.div_pos; lia.
  - apply Z.div_lt_upper_bound; lia.
Qed.

(** Lines 67-72 on a starting value below [2^44] MB. *)
Lemma uvmMemoryBytes_code mb :
  0 <= mb < 2 ^ 44 ->
  wrap64
    (wrap64
       ((if 0 <? wrap64 (mb + 256) mod 512
         then wrap64 (wrap64 (mb + 256)
                      + wrap64 (512 - wrap64 (mb + 256) mod 512))
         else wrap64 (mb + 256)) * 1024) * 1024)
  = wrap64 (round_up_512 (mb + 256) * MB).
Proof.
  intros Hmb.
  rewrite (wrap64_small (mb + 256)) by (unfold is_uint64; lia).
  pose proof (Z.mod_pos_bound (mb + 256) 512 ltac:(lia)) as B.
  rewrite (wrap64_small (512 - _)) by (unfold is_uint64; lia).
  rewrite (wrap64_small (mb + 256 + _)) by (unfold is_uint64; lia).
  rewrite wrap64_mul_MB. rewrite round_up_512_code. reflexivity.
Qed.

End Arithmetic.

(** ** The two resource derivations *)
Section Resources.

Context `{host : Host}.

Lemma UVMResources_present (spec : specs.Spec) (w : specs.Windows_t) :
  specs.Windows spec = Some w ->
  memory_block_present w ->
  UVMResourcesFromContainerSpec (Some spec)
  = Ok {| specs.Memory := Some
            {| specs.Limit := Some
                 (uvmMemoryBytes
                    (from_option (fun limit => limit / 1024 / 1024) 512
                                 (memory_limit w))) |};
          specs.CPU := Some
            {| specs.Count := Some
                 (from_option id default_processors (cpu_count w));
               specs.Shares := None;
               specs.Maximum := None |};
          specs.Storage := None |}.
Proof.
  intros Hw Hmem.
  unfold UVMResourcesFromContainerSpec, memory_limit, cpu_count,
    default_processors, uvmMemoryBytes.
  cbn [notnil negb and_then or_else obind deref].
  rewrite Hw. cbn [notnil negb and_then or_else obind deref].
  destruct (specs.Resources w) as [r|] eqn:Hr; cbn [and_field from_option].
  - specialize (Hmem r Hr).
    destruct (specs.Memory r) as [m|]; [|congruence].
    cbn [obind deref and_field].
    destruct (specs.Limit m), (specs.CPU r ~> specs.Count); reflexivity.
  - reflexivity.
Qed.

Lemma capacity_MB_no_wrap (limit : option Z) :
  from_option (fun bytes => 0 <= bytes < 2 ^ 63) True limit ->
  wrap64 (capacity_MB limit * MB) = capacity_MB limit * MB.
Proof.
  intros Hlim. apply wrap64_small. unfold is_uint64, capacity_MB.
  set (mb := from_option (fun bytes => bytes / MB) 512 limit).
  assert (0 <= mb < 2 ^ 43) as Hmb.
  { subst mb. destruct limit as [bytes|]; cbn [from_option] in *; [|lia].
    unfold MB. split; [apply Z.div_pos; lia|].
    apply Z.div_lt_upper_bound; lia. }
  pose proof (round_up_512_bounds (mb + 256)). unfold MB. lia.
Qed.

(** C1 (as amended). For a specification whose Windows section is present
    (and whose resource block, if present, has a memory block),
    [UVMResourcesFromContainerSpec] returns the memory limit
    [capacity_MB]: the specification's limit in MB if present, else 512;
    plus 256; rounded up to a multiple of 512; in bytes modulo [2^64],
    which is exact for limits below [2^63]. An explicit limit of 0 gives
    512 MB, 768 MB gives 1024 MB, 1 MB gives 512 MB, and an absent limit
    gives 1024 MB. *)
Theorem UVMResources_memory (spec : specs.Spec) (w : specs.Windows_t) :
  specs.Windows spec = Some w ->
  memory_block_present w ->
  from_option is_uint64 True (memory_limit w) ->
  (exists res,
      UVMResourcesFromContainerSpec (Some spec) = Ok res /\
      specs.Memory res
      = Some {| specs.Limit :=
                  Some (wrap64 (capacity_MB (memory_limit w) * MB)) |}) /\
  (from_option (fun bytes => bytes < 2 ^ 63) True (memory_limit w) ->
   wrap64 (capacity_MB (memory_limit w) * MB)
   = capacity_MB (memory_limit w) * MB) /\
  capacity_MB (Some 0) = 512 /\
  capacity_MB (Some (768 * MB)) = 1024 /\
  capacity_MB (Some (1 * MB)) = 512 /\
  capacity_MB None = 1024.
Proof.
  intros Hw Hmem Hrange. split; [|split].
  - eexists. split; [apply (UVMResources_present spec w Hw Hmem)|].
    cbn [specs.Memory]. do 3 f_equal.
    unfold uvmMemoryBytes, capacity_MB.
    destruct (memory_limit w) as [limit|]; cbn [from_option] in *.
    + rewrite MB_quotient.
      apply uvmMemoryBytes_code, MB_quotient_bounds, Hrange.
    + apply uvmMemoryBytes_code. lia.
  - intros Hsmall. apply capacity_MB_no_wrap.
    destruct (memory_limit w); cbn [from_option] in *; [|exact I].
    unfold is_uint64 in Hrange. lia.
  - repeat split; reflexivity.
Qed.

(** C10. When the resource block is present and its memory block is nil,
    [UVMResourcesFromContainerSpec] dereferences nil (it panics), whereas
    the VM-launch derivation checks the memory block first and keeps its
    default of 1024 MB. *)
Theorem UVMResources_nil_memory_block
    (spec : specs.Spec) (w : specs.Windows_t) (r : specs.WindowsResources) :
  specs.Windows spec = Some w ->
  specs.Resources w = Some r ->
  specs.Memory r = None ->
  UVMResourcesFromContainerSpec (Some spec) = Panic /\
  fst (createWCOWv2UVM_resources w) = 1024.
Proof.
  intros Hw Hr Hm. split.
  - unfold UVMResourcesFromContainerSpec.
    cbn [notnil negb and_then or_else obind deref].
    rewrite Hw. cbn [notnil negb and_then or_else obind deref].
    rewrite Hr, Hm. reflexivity.
  - unfold createWCOWv2UVM_resources. rewrite Hr, Hm.
    destruct (specs.CPU r ~> specs.Count); reflexivity.
Qed.

(** The error for Linux workloads is never returned: its guard,
    [spec == nil && spec.Linux != nil], is false of every non-nil [spec]
    and dereferences nil otherwise. *)
Lemma UVMResources_never_rejects_LCOW (spec : option specs.Spec) :
  UVMResourcesFromContainerSpec spec
  <> Fail (fmt_Errorf
             "UVMResourcesFromContainerSpec not supported for LCOW yet" []).
Proof.
  unfold UVMResourcesFromContainerSpec.
  destruct spec as [s|]; cbn [notnil negb and_then or_else obind deref];
    [|discriminate].
  destruct (specs.Windows s) as [w|];
    cbn [notnil negb and_then or_else obind deref]; [|discriminate].
  destruct (specs.Resources w) as [r|]; cbn [obind]; [|discriminate].
  destruct (specs.Memory r); cbn [obind deref]; discriminate.
Qed.

(** A specification without a Windows section is rejected. *)
Lemma UVMResources_no_windows (spec : specs.Spec) :
  specs.Windows spec = None ->
  UVMResourcesFromContainerSpec (Some spec)
  = Fail (fmt_Errorf "invalid spec" []).
Proof.
  intros Hw. unfold UVMResourcesFromContainerSpec.
  cbn [notnil negb and_then or_else obind deref].
  rewrite Hw. reflexivity.
Qed.

Lemma int32_small (z : Z) : - 2 ^ 31 <= z < 2 ^ 31 -> int32 z = z.
Proof. intros Hz. unfold int32. rewrite Z.mod_small; lia. Qed.

Lemma createWCOWv2UVM_resources_eq (w : specs.Windows_t) :
  createWCOWv2UVM_resources w
  = (from_option (fun bytes => int32 (bytes / MB)) 1024 (memory_limit w),
     from_option int32 default_processors (cpu_count w)).
Proof.
  unfold createWCOWv2UVM_resources, memory_limit, cpu_count,
    default_processors.
  destruct (specs.Resources w) as [r|]; cbn [and_field from_option].
  - destruct (specs.Memory r ~> specs.Limit) as [bytes|],
      (specs.CPU r ~> specs.Count); cbn [from_option];
      rewrite ?MB_quotient; reflexivity.
  - reflexivity.
Qed.

(** C4 (as amended). For the utility VM itself the memory is 1024 MB when
    the specification has no memory limit; an explicit limit gives its
    bytes divided by 1024*1024, converted to int32, with no headroom and
    no rounding: this is the quotient itself for every limit below
    [2^51] bytes, and 2147483648 bytes give exactly 2048 MB. *)
Theorem launch_memory (w : specs.Windows_t) :
  fst (createWCOWv2UVM_resources w)
  = from_option (fun bytes => int32 (bytes / MB)) 1024 (memory_limit w) /\
  (forall bytes,
      memory_limit w = Some bytes -> 0 <= bytes < 2 ^ 51 ->
      fst (createWCOWv2UVM_resources w) = bytes / MB) /\
  (memory_limit w = Some 2147483648 ->
   fst (createWCOWv2UVM_resources w) = 2048).
Proof.
  rewrite createWCOWv2UVM_resources_eq. cbn [fst].
  split; [reflexivity|split].
  - intros bytes -> Hb. cbn [from_option]. apply int32_small.
    unfold MB. split.
    + transitivity 0; [lia|]. apply Z.div_pos; lia.
    + apply Z.div_lt_upper_bound; lia.
  - intros ->. reflexivity.
Qed.


End Resources.

(** ** The checks of the specification for a hosting system *)
Section Checks.

Lemma violates_none_iff (spec : specs.Spec) (w : specs.Windows_t) :
  first_violation spec w = None <-> hosting_conditions spec w.
Proof.
  unfold first_violation, violations, hosting_conditions.
  cbn [find violates].
  destruct (len (specs.LayerFolders w) <? 2) eqn:C1;
    [apply Z.ltb_lt in C1; split; [discriminate|lia]|].
  apply Z.ltb_ge in C1.
  destruct (specs.Hostname spec) eqn:C2; cbn [bool_decide negb];
    [|split; [discriminate|intros (_ & ? & _); discriminate]].
  rewrite bool_decide_eq_true_2 by reflexivity. cbn [negb].
  destruct (specs.Resources w ~> specs.CPU ~> specs.Shares);
    cbn [notnil]; [split; [discriminate|intros (_ & _ & ? & _); discriminate]|].
  destruct (specs.Resources w ~> specs.CPU ~> specs.Maximum);
    cbn [notnil];
    [split; [discriminate|intros (_ & _ & _ & ? & _); discriminate]|].
  destruct (specs.Root spec); cbn [notnil];
    [split; [discriminate|intros (_ & _ & _ & _ & ? & _); discriminate]|].
  destruct (specs.Resources w ~> specs.Storage); cbn [notnil];
    [split; [discriminate|intros (_ & _ & _ & _ & _ & ? & _); discriminate]|].
  destruct (specs.CredentialSpec w); cbn [notnil];
    [split; [discriminate
            |intros (_ & _ & _ & _ & _ & _ & ? & _); discriminate]|].
  destruct (specs.Network w); cbn [notnil];
    [split; [discriminate
            |intros (_ & _ & _ & _ & _ & _ & _ & ? & _); discriminate]|].
  destruct (specs.Mounts spec);
    [|split; [discriminate
             |intros (_ & _ & _ & _ & _ & _ & _ & _ & ?); discriminate]].
  split; [intros _; repeat split; [lia|reflexivity..]|reflexivity].
Qed.

(** The checks return the rejection of the first violation. *)
Lemma createWCOWv2UVM_checks_eq
    (coi : createOptionsExInternal) (spec : specs.Spec)
    (w : specs.Windows_t) :
  Spec coi = Some spec ->
  specs.Windows spec = Some w ->
  createWCOWv2UVM_checks coi
  = match first_violation spec w with
    | Some v => Fail (rejection v)
    | None => Ok tt
    end.
Proof.
  intros Hs Hw. unfold createWCOWv2UVM_checks.
  rewrite Hs. cbn [deref obind]. rewrite Hw. cbn [deref obind].
  unfold first_violation, violations. cbn [find violates].
  destruct (len (specs.LayerFolders w) <? 2); [reflexivity|].
  destruct (specs.Hostname spec); [|reflexivity].
  cbn [String.length Z.of_nat Z.gtb Z.compare].
  rewrite bool_decide_eq_true_2 by reflexivity. cbn [negb].
  destruct (specs.Resources w ~> specs.CPU ~> specs.Shares);
    cbn [notnil]; [reflexivity|].
  destruct (specs.Resources w ~> specs.CPU ~> specs.Maximum);
    cbn [notnil]; [reflexivity|].
  destruct (specs.Root spec); cbn [notnil]; [reflexivity|].
  destruct (specs.Resources w ~> specs.Storage); cbn [notnil];
    [reflexivity|].
  destruct (specs.CredentialSpec w); cbn [notnil]; [reflexivity|].
  destruct (specs.Network w); cbn [notnil]; [reflexivity|].
  destruct (specs.Mounts spec); reflexivity.
Qed.

(** Without a specification, or without its Windows section, the first
    check dereferences nil. *)
Lemma createWCOWv2UVM_checks_nil (coi : createOptionsExInternal) :
  Spec coi ~> specs.Windows = None ->
  createWCOWv2UVM_checks coi = Panic.
Proof.
  unfold createWCOWv2UVM_checks.
  destruct (Spec coi) as [spec|]; cbn [and_field deref obind];
    [|reflexivity].
  intros ->. reflexivity.
Qed.

Lemma first_violation_violates
    (spec : specs.Spec) (w : specs.Windows_t) (v : Violation) :
  first_violation spec w = Some v -> violates v spec w = true.
Proof.
  unfold first_violation. intros Hf.
  apply find_some in Hf. apply Hf.
Qed.

Lemma violates_first_violation
    (spec : specs.Spec) (w : specs.Windows_t) (v : Violation) :
  violates v spec w = true ->
  exists v', first_violation spec w = Some v'.
Proof.
  intros Hv. unfold first_violation.
  destruct (find _ violations) as [v'|] eqn:Hf; [eauto|].
  assert (In v violations) as Hin by (destruct v; cbn; tauto).
  pose proof (find_none _ _ Hf v Hin) as Hn. cbn beta in Hn. congruence.
Qed.

(** C2 (as amended). With the specification and its Windows section
    present, the checks accept exactly the specifications with at least two
    layer folders, an empty hostname, no CPU shares, no CPU maximum, no
    root, no storage limits, no credential spec, no network and no
    mounts. A specification with a violation is rejected with the error
    of its first violation in the order of the checks; fewer than two
    layer folders are rejected with the LayerFolders error; the errors of
    different violations differ, and each names its field. *)
Theorem createWCOWv2UVM_checks_accept (coi : createOptionsExInternal) :
  (createWCOWv2UVM_checks coi = Ok tt <->
   exists spec w,
     Spec coi = Some spec /\ specs.Windows spec = Some w /\
     hosting_conditions spec w) /\
  (forall spec w v,
      Spec coi = Some spec -> specs.Windows spec = Some w ->
      violates v spec w = true ->
      exists v',
        first_violation spec w = Some v' /\
        violates v' spec w = true /\
        createWCOWv2UVM_checks coi = Fail (rejection v')) /\
  (forall spec w,
      Spec coi = Some spec -> specs.Windows spec = Some w ->
      len (specs.LayerFolders w) < 2 ->
      createWCOWv2UVM_checks coi = Fail (rejection VLayerFolders)) /\
  (forall v v', rejection v = rejection v' -> v = v') /\
  (forall v, mentions (field_name v) (Error (rejection v)) = true) /\
  mentions "LayerFolders" (Error (rejection VLayerFolders)) = true.
Proof.
  split; [|split; [|split; [|split; [|split]]]].
  - destruct (Spec coi) as [spec|] eqn:Hs.
    + destruct (specs.Windows spec) as [w|] eqn:Hw.
      * rewrite (createWCOWv2UVM_checks_eq coi spec w Hs Hw).
        split.
        -- intros Hok. exists spec, w.
           split; [reflexivity|split; [exact Hw|]].
           apply violates_none_iff.
           destruct (first_violation spec w); [discriminate|reflexivity].
        -- intros (spec' & w' & [= <-] & Hw' & Hc).
           rewrite Hw in Hw'. injection Hw' as <-.
           apply violates_none_iff in Hc. rewrite Hc. reflexivity.
      * rewrite createWCOWv2UVM_checks_nil
          by (rewrite Hs; cbn [and_field]; exact Hw).
        split; [discriminate|].
        intros (spec' & w' & [= <-] & Hw' & _). congruence.
    + rewrite createWCOWv2UVM_checks_nil by (rewrite Hs; reflexivity).
      split; [discriminate|]. intros (? & ? & ? & _). discriminate.
  - intros spec w v Hs Hw Hv.
    destruct (violates_first_violation spec w v Hv) as [v' Hf].
    exists v'. split; [exact Hf|]. split.
    + apply first_violation_violates, Hf.
    + rewrite (createWCOWv2UVM_checks_eq coi spec w Hs Hw), Hf.
      reflexivity.
  - intros spec w Hs Hw Hlen.
    rewrite (createWCOWv2UVM_checks_eq coi spec w Hs Hw).
    unfold first_violation, violations. cbn [find violates].
    apply Z.ltb_lt in Hlen. rewrite Hlen. reflexivity.
  - intros v v' E. destruct v, v'; first [reflexivity|discriminate E].
  - intros v. destruct v; vm_compute; reflexivity.
  - vm_compute. reflexivity.
Qed.

End Checks.

Lemma deref_Some {A} (p : option A) (a : A) : deref p = Ok a -> p = Some a.
Proof. destruct p; cbn; congruence. Qed.

(** ** Computations *)
Section Computations.

Context {A B : Type}.

Lemma bind_Ok (m : M A) (k : A -> M B) t b t' :
  bind m k t = (Ok b, t') ->
  exists a t1, m t = (Ok a, t1) /\ k a t1 = (Ok b, t').
Proof.
  unfold bind. destruct (m t) as [[a| |] t1]; intros E;
    [eauto|discriminate..].
Qed.

Lemma on_error_Ok (m : M A) wrap t a t' :
  on_error m wrap t = (Ok a, t') -> m t = (Ok a, t').
Proof.
  unfold on_error. destruct (m t) as [[a'| |] t1]; intros E;
    [exact E|discriminate..].
Qed.

Lemma lift_Ok (o : outcome A) t a t' :
  lift o t = (Ok a, t') -> o = Ok a /\ t' = t.
Proof. unfold lift. intros [= -> ->]. split; reflexivity. Qed.

Lemma call_Ok ev (answer : A) t a t' :
  call ev answer t = (Ok a, t') -> a = answer /\ t' = (t ++ [ev])%list.
Proof. unfold call. intros [= -> ->]. split; reflexivity. Qed.

Lemma check_err_Ok err wrap t u t' :
  check_err err wrap t = (Ok u, t') -> err = None /\ t' = t.
Proof.
  unfold check_err. destruct err; [discriminate|].
  intros [= _ ->]. split; reflexivity.
Qed.

End Computations.

(** ** The layer scan *)
Section Locate.

Context `{host : Host}.

(** Folders whose check reports "does not exist" are passed over. *)
Lemma Locate_loop_skip (pre rest : list string) (index : Z) t :
  Forall marker_absent pre ->
  LocateWCOWUVMFolderFromLayerFolders_loop (pre ++ rest)%list index t
  = LocateWCOWUVMFolderFromLayerFolders_loop rest (index + len pre)
      (t ++ scan_of pre)%list.
Proof.
  intros Hpre. revert index t.
  induction Hpre as [|f pre (e & Hstat & Hne) _ IH]; intros index t.
  - cbn [app scan_of map len length Z.of_nat].
    rewrite Z.add_0_r, app_nil_r. reflexivity.
  - cbn [app LocateWCOWUVMFolderFromLayerFolders_loop].
    unfold bind at 1, call at 1. fold (marker f).
    rewrite Hstat, Hne. cbn [negb].
    rewrite IH. unfold len. cbn [length scan_of map].
    rewrite <- app_assoc. cbn [app]. f_equal. lia.
Qed.

Lemma scan_of_app (l1 l2 : list string) :
  scan_of (l1 ++ l2) = (scan_of l1 ++ scan_of l2)%list.
Proof. apply map_app. Qed.

(** The scan up to and including a folder whose check does not report
    "does not exist". *)
Lemma Locate_loop_stop (pre post : list string) (f : string) t :
  Forall marker_absent pre ->
  LocateWCOWUVMFolderFromLayerFolders_loop (pre ++ f :: post)%list 0 t
  = match os_Stat (marker f) with
    | None => (Ok (f, len pre), (t ++ scan_of (pre ++ [f]))%list)
    | Some e =>
        if os_IsNotExist e then
          LocateWCOWUVMFolderFromLayerFolders_loop post (len pre + 1)
            (t ++ scan_of (pre ++ [f]))%list
        else (Fail e, (t ++ scan_of (pre ++ [f]))%list)
    end.
Proof.
  intros Hpre. rewrite (Locate_loop_skip pre (f :: post) 0 t Hpre).
  cbn [LocateWCOWUVMFolderFromLayerFolders_loop].
  unfold bind at 1, call at 1. fold (marker f).
  rewrite scan_of_app, app_assoc. cbn [scan_of map].
  rewrite Z.add_0_l.
  destruct (os_Stat (marker f)) as [e|]; [|reflexivity].
  destruct (os_IsNotExist e); reflexivity.
Qed.

(** The first folder with the marker, past folders without it. *)
Lemma first_with_marker_skip (pre post : list string) (f : string) :
  Forall marker_absent pre ->
  marker_exists f ->
  first_with_marker (pre ++ f :: post)%list = Some f.
Proof.
  intros Hpre Hf. unfold first_with_marker.
  induction Hpre as [|g pre (e & Hstat & _) _ IH]; cbn [app find].
  - rewrite Hf. reflexivity.
  - rewrite Hstat. cbn [notnil negb]. exact IH.
Qed.

(** C3 (as amended). Scanning in input order, with every check before
    the first success reporting "does not exist":
    [LocateWCOWUVMFolderFromLayerFolders] returns the first folder under
    which the marker exists and examines no folder after it, provided
    that folder is not the empty path; when that folder is the empty
    path, and when every check of the list reports "does not exist", it
    fails with the "not found" error. *)
Theorem Locate_first_match (pre post : list string) t :
  Forall marker_absent pre ->
  (forall f,
      marker_exists f ->
      first_with_marker (pre ++ f :: post)%list = Some f) /\
  (forall f,
      marker_exists f -> f <> "" ->
      LocateWCOWUVMFolderFromLayerFolders (pre ++ f :: post)%list t
      = (Ok f, (t ++ scan_of (pre ++ [f]))%list)) /\
  (marker_exists "" ->
   LocateWCOWUVMFolderFromLayerFolders (pre ++ "" :: post)%list t
   = (Fail not_found, (t ++ scan_of (pre ++ [""]))%list)) /\
  LocateWCOWUVMFolderFromLayerFolders pre t
  = (Fail not_found, (t ++ scan_of pre)%list).
Proof.
  intros Hpre. split; [|split; [|split]].
  - intros f Hf. apply first_with_marker_skip; assumption.
  - intros f Hf Hne. unfold LocateWCOWUVMFolderFromLayerFolders, bind.
    rewrite (Locate_loop_stop pre post f t Hpre), Hf.
    rewrite bool_decide_eq_false_2 by exact Hne. reflexivity.
  - intros Hf. unfold LocateWCOWUVMFolderFromLayerFolders, bind.
    rewrite (Locate_loop_stop pre post "" t Hpre), Hf. reflexivity.
  - unfold LocateWCOWUVMFolderFromLayerFolders, bind.
    rewrite <- (app_nil_r pre) at 1.
    rewrite (Locate_loop_skip pre [] 0 t Hpre). reflexivity.
Qed.

(** C8. When the scan reaches a folder whose check fails with an error
    other than "does not exist", [LocateWCOWUVMFolderFromLayerFolders]
    returns that very error, and the folders after it are not examined. *)
Theorem Locate_stat_error (pre post : list string) (f : string) (e : error) t :
  Forall marker_absent pre ->
  os_Stat (marker f) = Some e ->
  os_IsNotExist e = false ->
  LocateWCOWUVMFolderFromLayerFolders (pre ++ f :: post)%list t
  = (Fail e, (t ++ scan_of (pre ++ [f]))%list).
Proof.
  intros Hpre Hstat Hne. unfold LocateWCOWUVMFolderFromLayerFolders, bind.
  rewrite (Locate_loop_stop pre post f t Hpre), Hstat, Hne. reflexivity.
Qed.

Lemma Locate_loop_Ok (layerFolders : list string) index t f i t' :
  LocateWCOWUVMFolderFromLayerFolders_loop layerFolders index t
  = (Ok (f, i), t') ->
  f = "" \/ (In f layerFolders /\ marker_exists f).
Proof.
  revert index t.
  induction layerFolders as [|g rest IH]; intros index t Hloop.
  - unfold LocateWCOWUVMFolderFromLayerFolders_loop, ret in Hloop.
    left. injection Hloop as <- _ _. reflexivity.
  - cbn [LocateWCOWUVMFolderFromLayerFolders_loop] in Hloop.
    apply bind_Ok in Hloop as (err & t2 & Hcall & Hloop).
    apply call_Ok in Hcall as [-> ->].
    destruct (os_Stat (filepath_Join g "UtilityVM")) as [e|] eqn:Hstat.
    + destruct (os_IsNotExist e); [|discriminate].
      cbn [negb] in Hloop. apply IH in Hloop as [Hf|[Hin Hm]].
      * left. exact Hf.
      * right. split; [right; exact Hin|exact Hm].
    + right. injection Hloop as <- _ _.
      split; [left; reflexivity|exact Hstat].
Qed.

(** A successful scan returns one of the folders, and not the empty
    path. *)
Lemma Locate_Ok (layerFolders : list string) t uvmFolder t' :
  LocateWCOWUVMFolderFromLayerFolders layerFolders t = (Ok uvmFolder, t') ->
  In uvmFolder layerFolders /\ marker_exists uvmFolder /\ uvmFolder <> "".
Proof.
  unfold LocateWCOWUVMFolderFromLayerFolders. intros H.
  apply bind_Ok in H as ([f i] & t1 & Hloop & H).
  destruct (bool_decide (f = "")) eqn:Hf; [discriminate|].
  apply bool_decide_eq_false in Hf. injection H as -> ->.
  apply Locate_loop_Ok in Hloop as [?|[? ?]]; [contradiction|tauto].
Qed.

End Locate.

(** ** Creating the utility VM *)
Section Create.

Context `{host : Host}.

(** C9 (as amended). On every input whose specification and Windows
    section are present, the checks return a result, acceptance or the
    rejection of a violation, and a rejection is returned by
    [createWCOWv2UVM] before any call to the host. *)
Theorem createWCOWv2UVM_checks_total
    (coi : createOptionsExInternal) (spec : specs.Spec)
    (w : specs.Windows_t) :
  Spec coi = Some spec ->
  specs.Windows spec = Some w ->
  (createWCOWv2UVM_checks coi = Ok tt \/
   exists v, createWCOWv2UVM_checks coi = Fail (rejection v)) /\
  (forall e t,
      createWCOWv2UVM_checks coi = Fail e ->
      createWCOWv2UVM coi t = (Fail e, t)).
Proof.
  intros Hs Hw. split.
  - rewrite (createWCOWv2UVM_checks_eq coi spec w Hs Hw).
    destruct (first_violation spec w) as [v|]; [right; eauto|left].
    reflexivity.
  - intros e t He. unfold createWCOWv2UVM, bind at 1, lift at 1.
    rewrite He. reflexivity.
Qed.

Lemma index_last {A} (xs : list A) (x : A) :
  index xs (len xs - 1) = Ok x -> last xs = Some x.
Proof.
  unfold index, len. destruct (Z.of_nat (length xs) - 1 <? 0) eqn:C;
    [discriminate|].
  apply Z.ltb_ge in C.
  replace (Z.to_nat (Z.of_nat (length xs) - 1)) with (pred (length xs))
    by lia.
  rewrite last_lookup. destruct (xs !! pred (length xs)); congruence.
Qed.

Lemma CreateWCOWUVMSandbox_Ok imagePath destDirectory vmID t u t' :
  CreateWCOWUVMSandbox imagePath destDirectory vmID t = (Ok u, t') ->
  CopyFile (filepath_Join imagePath "UtilityVM\SystemTemplate.vhdx")
           (filepath_Join destDirectory "sandbox.vhdx") true = None /\
  GrantVmAccess vmID (filepath_Join destDirectory "sandbox.vhdx") = None /\
  t' = (t ++ [EvCopyFile
                (filepath_Join imagePath "UtilityVM\SystemTemplate.vhdx")
                (filepath_Join destDirectory "sandbox.vhdx") true;
              EvGrantVmAccess vmID
                (filepath_Join destDirectory "sandbox.vhdx")])%list.
Proof.
  unfold CreateWCOWUVMSandbox. intros H.
  apply bind_Ok in H as (err1 & t1 & Hc1 & H).
  apply call_Ok in Hc1 as [-> ->].
  apply bind_Ok in H as (? & t2 & Hk1 & H).
  apply check_err_Ok in Hk1 as [Hcopy ->].
  apply bind_Ok in H as (err2 & t3 & Hc2 & H).
  apply call_Ok in Hc2 as [-> ->].
  apply bind_Ok in H as (? & t4 & Hk2 & H).
  apply check_err_Ok in Hk2 as [Hgrant ->].
  injection H as _ <-. split; [exact Hcopy|]. split; [exact Hgrant|].
  rewrite <- app_assoc. reflexivity.
Qed.

(** C6. When [createWCOWv2UVM] succeeds, the specification has passed
    the checks, the scan has resolved the boot-image folder, and the
    document it has built and submitted has exactly one SCSI controller
    with exactly one attachment, the [sandbox.vhdx] of the last layer
    folder; one VSMB share, [os], with the flags read-only, pseudo-oplocks,
    backup-privilege, cache-IO and share-read, on [UtilityVM\Files] of the
    boot-image folder; the UEFI boot entry
    [\EFI\Microsoft\Boot\bootmgfw.efi] on disk 0; the guest interface
    connected to the bridge; the memory and processors of the launch
    derivation. The sandbox disk has been copied: [CopyFile] from
    [UtilityVM\SystemTemplate.vhdx] of the boot-image folder to
    [sandbox.vhdx] in the last layer folder was called once, before the
    submission, and returned no error, as did the grant of access on that
    file, the creation of the sandbox folder if it was missing,
    [json.Marshal] and [createContainer], whose handle is returned with the
    sandbox disk recorded. Paths are joined by [filepath.Join]. *)
Theorem createWCOWv2UVM_descriptor
    (coi : createOptionsExInternal) t (c : container) t' :
  createWCOWv2UVM coi t = (Ok c, t') ->
  exists spec w uvmFolder sandboxFolder t1 mkdir uvm uvmb devices c0,
    Spec coi = Some spec /\ specs.Windows spec = Some w /\
    hosting_conditions spec w /\
    LocateWCOWUVMFolderFromLayerFolders (specs.LayerFolders w) t
    = (Ok uvmFolder, t1) /\
    last (specs.LayerFolders w) = Some sandboxFolder /\
    uvm = uvm_document coi w uvmFolder sandboxFolder /\
    hcsschemav2.VirtualMachine uvm ~> hcsschemav2.Devices = Some devices /\
    hcsschemav2.SCSI devices
    = {[ "0" :=
           {| hcsschemav2.Attachments :=
                {[ "0" :=
                     {| hcsschemav2.Path :=
                          filepath_Join sandboxFolder "sandbox.vhdx";
                        hcsschemav2.Type_ := "VirtualDisk" |} ]} |} ]} /\
    hcsschemav2.VirtualSMBShares devices
    = [ {| hcsschemav2.Flags :=
             Z.lor (Z.lor (Z.lor (Z.lor VsmbFlagReadOnly
                                        VsmbFlagPseudoOplocks)
                                 VsmbFlagTakeBackupPrivilege)
                          VsmbFlagCacheIO)
                   VsmbFlagShareRead;
           hcsschemav2.Name := "os";
           hcsschemav2.SharePath :=
             filepath_Join uvmFolder "UtilityVM\Files" |} ] /\
    hcsschemav2.GuestInterface devices
    = Some {| hcsschemav2.ConnectToBridge := true |} /\
    hcsschemav2.VirtualMachine uvm ~> hcsschemav2.Chipset
      ~> hcsschemav2.UEFI ~> hcsschemav2.BootThis
    = Some {| hcsschemav2.DevicePath := "\EFI\Microsoft\Boot\bootmgfw.efi";
              hcsschemav2.DiskNumber := 0;
              hcsschemav2.UefiDevice := "VMBFS" |} /\
    hcsschemav2.VirtualMachine uvm ~> hcsschemav2.ComputeTopology
    = Some {| hcsschemav2.Memory := Some
                {| hcsschemav2.Backing := "Virtual";
                   hcsschemav2.Startup :=
                     fst (createWCOWv2UVM_resources w);
                   hcsschemav2.DirectFileMappingMB := 1024 |};
              hcsschemav2.Processor := Some
                {| hcsschemav2.Count :=
                     snd (createWCOWv2UVM_resources w) |} |} /\
    (sandbox_missing sandboxFolder = false /\ mkdir = [] \/
     sandbox_missing sandboxFolder = true /\
     os_MkdirAll sandboxFolder 511 = None /\
     mkdir = [EvMkdirAll sandboxFolder 511]) /\
    CopyFile (filepath_Join uvmFolder "UtilityVM\SystemTemplate.vhdx")
             (filepath_Join sandboxFolder "sandbox.vhdx") true = None /\
    GrantVmAccess (actualId coi) (filepath_Join sandboxFolder "sandbox.vhdx")
    = None /\
    json_Marshal uvm = (uvmb, None) /\
    createContainer (actualId coi) uvmb schemaversion_SchemaV20
    = (Some c0, None) /\
    c = finished c0 (filepath_Join sandboxFolder "sandbox.vhdx") /\
    t' = (t1 ++ [EvStat sandboxFolder] ++ mkdir ++
          [EvCopyFile
             (filepath_Join uvmFolder "UtilityVM\SystemTemplate.vhdx")
             (filepath_Join sandboxFolder "sandbox.vhdx") true;
           EvGrantVmAccess (actualId coi)
             (filepath_Join sandboxFolder "sandbox.vhdx");
           EvCreateContainer (actualId coi) uvmb
             schemaversion_SchemaV20])%list.
Proof.
  unfold createWCOWv2UVM. intros H.
  apply bind_Ok in H as ([] & t0 & Hchecks & H).
  apply lift_Ok in Hchecks as [Hchecks ->].
  apply bind_Ok in H as (spec & t0 & Hs & H).
  apply lift_Ok in Hs as [Hs ->]. apply deref_Some in Hs.
  apply bind_Ok in H as (w & t0 & Hw & H).
  apply lift_Ok in Hw as [Hw ->]. apply deref_Some in Hw.
  assert (hosting_conditions spec w) as Hfit.
  { rewrite (createWCOWv2UVM_checks_eq coi spec w Hs Hw) in Hchecks.
    apply violates_none_iff.
    destruct (first_violation spec w); [discriminate|reflexivity]. }
  apply bind_Ok in H as (uvmFolder & t1 & Hlocate & H).
  apply on_error_Ok in Hlocate.
  apply bind_Ok in H as (sandboxFolder & t0 & Hlast & H).
  apply lift_Ok in Hlast as [Hlast ->]. apply index_last in Hlast.
  apply bind_Ok in H as (err & t2 & Hstat & H).
  apply call_Ok in Hstat as [-> ->].
  apply bind_Ok in H as (? & t3 & Hmk & H).
  assert (exists mkdir,
             (sandbox_missing sandboxFolder = false /\ mkdir = [] \/
              sandbox_missing sandboxFolder = true /\
              os_MkdirAll sandboxFolder 511 = None /\
              mkdir = [EvMkdirAll sandboxFolder 511]) /\
             t3 = (t1 ++ [EvStat sandboxFolder] ++ mkdir)%list)
    as (mkdir & Hmkdir & ->).
  { unfold sandbox_missing.
    destruct (from_option os_IsNotExist false (os_Stat sandboxFolder)).
    - apply bind_Ok in Hmk as (err & t4 & Hcall & Hmk).
      apply call_Ok in Hcall as [-> ->].
      apply check_err_Ok in Hmk as [Hmkerr ->].
      exists [EvMkdirAll sandboxFolder 511].
      split; [right; repeat split; [exact Hmkerr]|].
      rewrite <- app_assoc. reflexivity.
    - injection Hmk as _ <-. exists [].
      split; [left; split; reflexivity|]. reflexivity. }
  apply bind_Ok in H as (? & t4 & Hsandbox & H).
  apply on_error_Ok, CreateWCOWUVMSandbox_Ok in Hsandbox
    as (Hcopy & Hgrant & ->).
  destruct (createWCOWv2UVM_resources w) as [memory processors] eqn:Hres.
  match type of H with
  | context [json_Marshal ?d] =>
      set (uvm := d) in *; destruct (json_Marshal uvm) as [uvmb jerr] eqn:Hj
  end.
  apply bind_Ok in H as (? & t0 & Hjerr & H).
  apply check_err_Ok in Hjerr as [-> ->].
  apply bind_Ok in H as ([uvmContainer cerr] & t5 & Hcreate & H).
  apply call_Ok in Hcreate as [Hcreate ->].
  apply bind_Ok in H as (? & t0 & Hcerr & H).
  apply check_err_Ok in Hcerr as [-> ->].
  apply bind_Ok in H as (c0 & t0 & Hc0 & H).
  apply lift_Ok in Hc0 as [Hc0 ->]. apply deref_Some in Hc0. subst uvmContainer.
  injection H as <- <-.
  exists spec, w, uvmFolder, sandboxFolder, t1, mkdir, uvm, uvmb.
  eexists. exists c0.
  split; [exact Hs|]. split; [exact Hw|]. split; [exact Hfit|].
  split; [exact Hlocate|]. split; [exact Hlast|].
  split; [subst uvm; unfold uvm_document; rewrite Hres; reflexivity|].
  split; [reflexivity|]. cbn [hcsschemav2.SCSI hcsschemav2.VirtualSMBShares
                               hcsschemav2.GuestInterface].
  split; [rewrite !insert_empty; reflexivity|].
  rewrite Hres. cbn [fst snd].
  repeat (split; [reflexivity|]).
  split; [exact Hmkdir|]. split; [exact Hcopy|]. split; [exact Hgrant|].
  split; [exact Hj|]. split; [symmetry; exact Hcreate|].
  split; [unfold finished; rewrite lookup_insert_eq; reflexivity|].
  rewrite <- !app_assoc. reflexivity.
Qed.

End Create.

(** ** The properties at concrete specifications *)
Section Concrete.

Import Examples.

Lemma memory_block_present_limit (bytes : Z) :
  memory_block_present (windows_limit bytes).
Proof. intros r Hr. cbn in Hr. injection Hr as <-. cbn. discriminate. Defined.


(** A limit of 768 MB gives 1024 MB. *)
Lemma UVMResources_memory_768 :
  specs.Windows (spec_with None (Some (windows_limit (768 * MB))))
  = Some (windows_limit (768 * MB)) /\
  memory_block_present (windows_limit (768 * MB)) /\
  exists res,
    @UVMResourcesFromContainerSpec host2
      (Some (spec_with None (Some (windows_limit (768 * MB))))) = Ok res /\
    specs.Memory res = Some {| specs.Limit := Some (1024 * MB) |}.
Proof.
  split; [reflexivity|]. split; [apply memory_block_present_limit|].
  apply (UVMResources_memory (host := host2)
           (spec_with None (Some (windows_limit (768 * MB))))
           (windows_limit (768 * MB)) eq_refl
           (memory_block_present_limit _)).
  vm_compute. split; [discriminate|reflexivity].
Defined.

(** Without a memory limit the result is 1024 MB, not the 512 MB of
    [claimed_capacity_MB]. *)
Lemma UVMResources_memory_absent_limit :
  ~ exists res,
      @UVMResourcesFromContainerSpec host2
        (Some (spec_with None (Some windows_no_limit))) = Ok res /\
      specs.Memory res
      = Some {| specs.Limit :=
                  Some (claimed_capacity_MB (memory_limit windows_no_limit)
                        * MB) |}.
Proof.
  intros (res & Hres & Hmem). vm_compute in Hres. injection Hres as <-.
  vm_compute in Hmem. discriminate Hmem.
Qed.

(** A resource block without memory block: a panic for capacity
    planning, 1024 MB for the launch. *)
Lemma UVMResources_nil_memory_block_example :
  specs.Windows (spec_with None (Some windows_no_memory))
  = Some windows_no_memory /\
  specs.Resources windows_no_memory = Some (resources_with None None) /\
  specs.Memory (resources_with None None) = None /\
  @UVMResourcesFromContainerSpec host2
    (Some (spec_with None (Some windows_no_memory))) = Panic /\
  fst (@createWCOWv2UVM_resources host2 windows_no_memory) = 1024.
Proof.
  split; [reflexivity|]. split; [reflexivity|]. split; [reflexivity|].
  apply (UVMResources_nil_memory_block (host := host2)
           (spec_with None (Some windows_no_memory)) windows_no_memory
           (resources_with None None) eq_refl eq_refl eq_refl).
Defined.

(** C7, at a specification with a Linux section and at a nil
    specification: the first is given resources (1024 MB, 2 processors)
    instead of the "not supported for LCOW" error, the second panics
    instead of failing with an error. *)
Theorem UVMResources_LCOW_not_rejected :
  @UVMResourcesFromContainerSpec host2 (Some spec_lcow)
  = Ok {| specs.Memory := Some {| specs.Limit := Some (1024 * MB) |};
          specs.CPU := Some {| specs.Count := Some 2;
                               specs.Shares := None;
                               specs.Maximum := None |};
          specs.Storage := None |} /\
  @UVMResourcesFromContainerSpec host2 None = Panic.
Proof. split; reflexivity. Qed.

(** A limit of 2 GiB launches with 2048 MB. *)
Lemma launch_memory_2048 :
  memory_limit (windows_limit 2147483648) = Some 2147483648 /\
  fst (@createWCOWv2UVM_resources host2 (windows_limit 2147483648)) = 2048.
Proof.
  split; [reflexivity|].
  apply (launch_memory (host := host2) (windows_limit 2147483648)).
  reflexivity.
Defined.

(** A limit of [2^51] bytes is [2^31] MB, which the conversion to int32
    turns into [-2^31]: not the quotient [claimed_launch_MB]. *)
Lemma launch_memory_wraps :
  fst (@createWCOWv2UVM_resources host2 (windows_limit (2 ^ 51)))
  <> claimed_launch_MB (memory_limit (windows_limit (2 ^ 51))).
Proof. vm_compute. discriminate. Qed.


(** A hosting specification with three layer folders passes the checks;
    one layer folder is rejected. *)
Lemma createWCOWv2UVM_checks_examples :
  createWCOWv2UVM_checks
    (options_for (Some (spec_with None (Some (windows_with layers None)))))
  = Ok tt /\
  createWCOWv2UVM_checks
    (options_for
       (Some (spec_with None (Some (windows_with ["C:\layers\A"] None)))))
  = Fail (rejection VLayerFolders).
Proof.
  split.
  - apply (createWCOWv2UVM_checks_accept
             (options_for
                (Some (spec_with None (Some (windows_with layers None)))))).
    exists (spec_with None (Some (windows_with layers None))),
      (windows_with layers None).
    split; [reflexivity|]. split; [reflexivity|].
    unfold hosting_conditions.
    split; [vm_compute; discriminate|]. repeat split; reflexivity.
  - pose proof (createWCOWv2UVM_checks_accept
             (options_for
                (Some (spec_with None
                         (Some (windows_with ["C:\layers\A"] None))))))
      as (_ & _ & Hlen & _).
    apply (Hlen (spec_with None (Some (windows_with ["C:\layers\A"] None)))
                (windows_with ["C:\layers\A"] None) eq_refl eq_refl).
    reflexivity.
Defined.

(** With the specification present the checks return a result. *)
Lemma createWCOWv2UVM_checks_total_example :
  Spec (options_for (Some (spec_with None (Some (windows_with layers None)))))
  = Some (spec_with None (Some (windows_with layers None))) /\
  specs.Windows (spec_with None (Some (windows_with layers None)))
  = Some (windows_with layers None) /\
  returns_a_result
    (createWCOWv2UVM_checks
       (options_for
          (Some (spec_with None (Some (windows_with layers None)))))).
Proof.
  split; [reflexivity|]. split; [reflexivity|].
  destruct (createWCOWv2UVM_checks_total (host := host2)
              (options_for
                 (Some (spec_with None (Some (windows_with layers None)))))
              (spec_with None (Some (windows_with layers None)))
              (windows_with layers None) eq_refl eq_refl)
    as [[Hok|[v Hv]] _].
  - left. exact Hok.
  - right. exists (rejection v). exact Hv.
Defined.

(** Without a specification, and without its Windows section, the checks
    return no result. *)
Lemma createWCOWv2UVM_checks_nil_spec :
  ~ returns_a_result (createWCOWv2UVM_checks (options_for None)) /\
  ~ returns_a_result
      (createWCOWv2UVM_checks (options_for (Some (spec_with None None)))).
Proof.
  split; intros [H|[e H]]; vm_compute in H; discriminate H.
Qed.

(** Layer A has no boot image, layer B has one: B is returned and the
    sandbox folder is not examined. *)
Lemma Locate_layers :
  Forall (@marker_absent host2) ["C:\layers\A"] /\
  @marker_exists host2 "C:\layers\B" /\
  "C:\layers\B" <> "" /\
  @LocateWCOWUVMFolderFromLayerFolders host2 layers []
  = (Ok "C:\layers\B",
     [EvStat "C:\layers\A\UtilityVM"; EvStat "C:\layers\B\UtilityVM"]).
Proof.
  assert (Forall (@marker_absent host2) ["C:\layers\A"]) as Hpre.
  { repeat constructor. exists ERROR_FILE_NOT_FOUND.
    split; reflexivity. }
  split; [exact Hpre|]. split; [reflexivity|]. split; [discriminate|].
  apply (proj1 (proj2 (Locate_first_match (host := host2)
                         ["C:\layers\A"] ["C:\layers\sandbox"] [] Hpre)));
    [reflexivity|discriminate].
Defined.

(** The marker exists under the empty path (a [UtilityVM] entry in the
    working directory), which is first in the list, and the scan fails
    with "not found". *)
Lemma Locate_empty_path :
  ~ @claimed_Locate host_cwd [""; "C:\layers\B"].
Proof. unfold claimed_Locate. vm_compute. discriminate. Qed.

(** Layer X has no boot image and layer A cannot be examined: the scan
    stops at A with its error. *)
Lemma Locate_access_denied :
  Forall (@marker_absent host_denied) ["C:\layers\X"] /\
  @os_Stat host_denied (@marker host_denied "C:\layers\A")
  = Some ERROR_ACCESS_DENIED /\
  os_IsNotExist ERROR_ACCESS_DENIED = false /\
  @LocateWCOWUVMFolderFromLayerFolders host_denied
    ["C:\layers\X"; "C:\layers\A"; "C:\layers\B"] []
  = (Fail ERROR_ACCESS_DENIED,
     [EvStat "C:\layers\X\UtilityVM"; EvStat "C:\layers\A\UtilityVM"]).
Proof.
  assert (Forall (@marker_absent host_denied) ["C:\layers\X"]) as Hpre.
  { repeat constructor. exists ERROR_FILE_NOT_FOUND.
    split; reflexivity. }
  split; [exact Hpre|]. split; [reflexivity|]. split; [reflexivity|].
  apply (Locate_stat_error (host := host_denied)
           ["C:\layers\X"] ["C:\layers\B"] "C:\layers\A"
           ERROR_ACCESS_DENIED [] Hpre eq_refl eq_refl).
Defined.

(** Layers A, B and the sandbox folder, B carrying the boot image, on a
    host that renders the document it is given: the run succeeds, and what
    it submits is the rendering of the document built for B and the
    sandbox folder, whose share is under B and whose attachment is the
    sandbox disk; the copy, from B's template to the sandbox folder,
    returned no error. *)
Lemma createWCOWv2UVM_layers :
  (exists c,
      @createWCOWv2UVM Failures.host_render Failures.hosting_options []
      = (Ok c,
         [EvStat "C:\layers\A\UtilityVM"; EvStat "C:\layers\B\UtilityVM";
          EvStat "C:\layers\sandbox";
          EvCopyFile "C:\layers\B\UtilityVM\SystemTemplate.vhdx"
            "C:\layers\sandbox\sandbox.vhdx" true;
          EvGrantVmAccess "uvm-1" "C:\layers\sandbox\sandbox.vhdx";
          EvCreateContainer "uvm-1"
            "C:\layers\B\UtilityVM\Files|C:\layers\sandbox\sandbox.vhdx"
            {| schemaversion.Major := 2; schemaversion.Minor := 0 |}])) /\
  exists uvm devices,
    uvm = @uvm_document Failures.host_render Failures.hosting_options
            Failures.hosting_windows "C:\layers\B" "C:\layers\sandbox" /\
    @json_Marshal Failures.host_render uvm
    = ("C:\layers\B\UtilityVM\Files|C:\layers\sandbox\sandbox.vhdx", None) /\
    hcsschemav2.VirtualMachine uvm ~> hcsschemav2.Devices = Some devices /\
    hcsschemav2.SCSI devices
    = {[ "0" :=
           {| hcsschemav2.Attachments :=
                {[ "0" :=
                     {| hcsschemav2.Path := "C:\layers\sandbox\sandbox.vhdx";
                        hcsschemav2.Type_ := "VirtualDisk" |} ]} |} ]} /\
    hcsschemav2.VirtualSMBShares devices
    = [ {| hcsschemav2.Flags := 8215;
           hcsschemav2.Name := "os";
           hcsschemav2.SharePath := "C:\layers\B\UtilityVM\Files" |} ] /\
    @CopyFile Failures.host_render
      "C:\layers\B\UtilityVM\SystemTemplate.vhdx"
      "C:\layers\sandbox\sandbox.vhdx" true = None.
Proof.
  match goal with
  | |- (exists c, ?run = (Ok c, ?t')) /\ _ =>
      assert (exists c, run = (Ok c, t')) as [c Hrun]
        by (eexists; vm_compute; reflexivity)
  end.
  split; [exists c; exact Hrun|].
  destruct (createWCOWv2UVM_descriptor (host := Failures.host_render)
              _ _ _ _ Hrun)
    as (spec & w & uvmFolder & sandboxFolder & t1 & mkdir & uvm & uvmb
        & devices & c0 & Hs & Hw & _ & Hlocate & Hlast & Huvm & Hdevices
        & Hscsi & Hshares & _ & _ & _ & _ & Hcopy & _ & Hmarshal & _).
  injection Hs as <-. injection Hw as <-.
  injection Hlocate as <- _. injection Hlast as <-.
  exists uvm, devices.
  split; [exact Huvm|].
  split; [rewrite Hmarshal; rewrite Huvm in Hmarshal;
          injection Hmarshal as <-; reflexivity|].
  split; [exact Hdevices|]. split; [exact Hscsi|].
  split; [exact Hshares|exact Hcopy].
Defined.

(** A specification with a hostname and no Windows section is not
    rejected for its hostname: the first check dereferences nil. *)
Lemma createWCOWv2UVM_checks_hostname_no_windows :
  specs.Hostname Failures.spec_hostname_no_windows <> "" /\
  createWCOWv2UVM_checks
    (options_for (Some Failures.spec_hostname_no_windows))
  <> Fail (rejection VHostname) /\
  ~ returns_a_result
      (createWCOWv2UVM_checks
         (options_for (Some Failures.spec_hostname_no_windows))).
Proof.
  split; [discriminate|]. split; [vm_compute; discriminate|].
  intros [H|[e H]]; vm_compute in H; discriminate H.
Qed.


End Concrete.

(** * Further properties *)

(** ** Capacity planning: the memory of the utility VM *)
Section Capacity.

Context `{host : Host}.

Lemma memory_limit_block (w : specs.Windows_t) (limit : Z) :
  memory_limit w = Some limit -> memory_block_present w.
Proof.
  unfold memory_limit, memory_block_present. intros Hl r Hr.
  rewrite Hr in Hl. cbn [and_field] in Hl.
  destruct (specs.Memory r); [discriminate|discriminate Hl].
Qed.

(** What [UVMResourcesFromContainerSpec] returns as memory limit. *)
Lemma UVMResources_limit_bytes (spec : specs.Spec) (w : specs.Windows_t) :
  specs.Windows spec = Some w ->
  memory_block_present w ->
  from_option is_uint64 True (memory_limit w) ->
  exists res,
    UVMResourcesFromContainerSpec (Some spec) = Ok res /\
    specs.Memory res
    = Some {| specs.Limit :=
                Some (wrap64 (capacity_MB (memory_limit w) * MB)) |} /\
    specs.CPU res
    = Some {| specs.Count :=
                Some (from_option id default_processors (cpu_count w));
              specs.Shares := None;
              specs.Maximum := None |} /\
    specs.Storage res = None.
Proof.
  intros Hw Hmem Hrange. eexists.
  split; [apply (UVMResources_present spec w Hw Hmem)|].
  cbn [specs.Memory specs.CPU specs.Storage].
  split; [|split; reflexivity]. do 3 f_equal.
  unfold uvmMemoryBytes, capacity_MB.
  destruct (memory_limit w) as [limit|]; cbn [from_option] in *.
  - rewrite MB_quotient.
    apply uvmMemoryBytes_code, MB_quotient_bounds, Hrange.
  - apply uvmMemoryBytes_code. lia.
Qed.

Lemma wrap64_multiple (k : Z) :
  wrap64 (k * 512 * MB) mod (512 * MB) = 0 /\ is_uint64 (wrap64 (k * 512 * MB)).
Proof.
  unfold wrap64, is_uint64. split.
  - replace (2 ^ 64) with (2 ^ 35 * (512 * MB)) by (unfold MB; lia).
    replace (k * 512 * MB) with (k * (512 * MB)) by lia.
    rewrite Z.mul_mod_distr_r by (unfold MB; lia).
    apply Z_mod_mult.
  - apply Z.mod_pos_bound. lia.
Qed.

(** X2. The memory limit returned is a whole number of 512 MB units, for every
    limit a uint64 can hold, the wrap-around of the conversion to bytes
    included. *)
Theorem UVMResources_memory_granularity
    (spec : specs.Spec) (w : specs.Windows_t) :
  specs.Windows spec = Some w ->
  memory_block_present w ->
  from_option is_uint64 True (memory_limit w) ->
  exists res bytes,
    UVMResourcesFromContainerSpec (Some spec) = Ok res /\
    specs.Memory res = Some {| specs.Limit := Some bytes |} /\
    bytes mod (512 * MB) = 0 /\
    is_uint64 bytes.
Proof.
  intros Hw Hmem Hrange.
  destruct (UVMResources_limit_bytes spec w Hw Hmem Hrange)
    as (res & Hres & Hbytes & _).
  exists res, (wrap64 (capacity_MB (memory_limit w) * MB)).
  split; [exact Hres|]. split; [exact Hbytes|].
  unfold capacity_MB, round_up_512. apply wrap64_multiple.
Qed.

Lemma capacity_MB_bounds (limit : Z) :
  0 <= limit ->
  limit + 255 * MB < capacity_MB (Some limit) * MB <= limit + 767 * MB /\
  512 <= capacity_MB (Some limit).
Proof.
  intros Hpos. unfold capacity_MB. cbn [from_option].
  pose proof (round_up_512_bounds (limit / MB + 256)) as B.
  pose proof (Z.div_mod limit MB ltac:(unfold MB; lia)) as E.
  pose proof (Z.mod_pos_bound limit MB ltac:(unfold MB; lia)) as R.
  assert (0 <= limit / MB) by (apply Z.div_pos; unfold MB; lia).
  split.
  - unfold MB in *. lia.
  - unfold round_up_512 in *.
    assert (1 <= (limit / MB + 256 + 511) / 512).
    { apply Z.div_le_lower_bound; lia. }
    lia.
Qed.

(** X3. Below [2^64 - 767 MB] the conversion to bytes does not wrap: the
    utility VM gets more than the container's limit plus 255 MB, at most
    the limit plus 767 MB, and never less than 512 MB. *)
Theorem UVMResources_headroom
    (spec : specs.Spec) (w : specs.Windows_t) (limit : Z) :
  specs.Windows spec = Some w ->
  memory_limit w = Some limit ->
  0 <= limit < 2 ^ 64 - 767 * MB ->
  exists res bytes,
    UVMResourcesFromContainerSpec (Some spec) = Ok res /\
    specs.Memory res = Some {| specs.Limit := Some bytes |} /\
    limit + 255 * MB < bytes <= limit + 767 * MB /\
    512 * MB <= bytes.
Proof.
  intros Hw Hl Hrange.
  destruct (UVMResources_limit_bytes spec w Hw (memory_limit_block w limit Hl))
    as (res & Hres & Hbytes & _).
  { rewrite Hl. cbn [from_option]. unfold is_uint64, MB in *. lia. }
  rewrite Hl in Hbytes.
  exists res, (capacity_MB (Some limit) * MB).
  pose proof (capacity_MB_bounds limit ltac:(lia)) as [B1 B2].
  rewrite wrap64_small in Hbytes by (unfold is_uint64, MB in *; lia).
  split; [exact Hres|]. split; [exact Hbytes|]. split; [exact B1|].
  unfold MB in *. lia.
Qed.

(** X4. From [2^64 - 767 MB] on the conversion to bytes wraps: the memory limit
    returned is 0 or 512 MB. *)
Theorem UVMResources_memory_wraps
    (spec : specs.Spec) (w : specs.Windows_t) (limit : Z) :
  specs.Windows spec = Some w ->
  memory_limit w = Some limit ->
  2 ^ 64 - 767 * MB <= limit < 2 ^ 64 ->
  exists res bytes,
    UVMResourcesFromContainerSpec (Some spec) = Ok res /\
    specs.Memory res = Some {| specs.Limit := Some bytes |} /\
    (bytes = 0 \/ bytes = 512 * MB).
Proof.
  intros Hw Hl Hrange.
  destruct (UVMResources_limit_bytes spec w Hw (memory_limit_block w limit Hl))
    as (res & Hres & Hbytes & _).
  { rewrite Hl. cbn [from_option]. unfold is_uint64, MB in *. lia. }
  rewrite Hl in Hbytes.
  exists res, (wrap64 (capacity_MB (Some limit) * MB)).
  split; [exact Hres|]. split; [exact Hbytes|].
  unfold capacity_MB, round_up_512. cbn [from_option].
  assert (2 ^ 44 - 767 <= limit / MB < 2 ^ 44) as Hq.
  { unfold MB in *. split.
    - apply Z.div_le_lower_bound; lia.
    - apply Z.div_lt_upper_bound; lia. }
  set (q := (limit / MB + 256 + 511) / 512).
  assert (q = 2 ^ 35 \/ q = 2 ^ 35 + 1) as [-> | ->].
  { subst q.
    assert (2 ^ 35 <= (limit / MB + 256 + 511) / 512)
      by (apply Z.div_le_lower_bound; lia).
    assert ((limit / MB + 256 + 511) / 512 < 2 ^ 35 + 2)
      by (apply Z.div_lt_upper_bound; lia).
    lia. }
  - left. reflexivity.
  - right. reflexivity.
Qed.

(** X5. A larger container limit never gives a smaller utility VM, as long as
    the conversion to bytes does not wrap. *)
Theorem UVMResources_memory_monotone
    (spec1 spec2 : specs.Spec) (w1 w2 : specs.Windows_t) (limit1 limit2 : Z) :
  specs.Windows spec1 = Some w1 -> memory_limit w1 = Some limit1 ->
  specs.Windows spec2 = Some w2 -> memory_limit w2 = Some limit2 ->
  0 <= limit1 <= limit2 ->
  limit2 < 2 ^ 64 - 767 * MB ->
  exists res1 res2 bytes1 bytes2,
    UVMResourcesFromContainerSpec (Some spec1) = Ok res1 /\
    UVMResourcesFromContainerSpec (Some spec2) = Ok res2 /\
    specs.Memory res1 = Some {| specs.Limit := Some bytes1 |} /\
    specs.Memory res2 = Some {| specs.Limit := Some bytes2 |} /\
    bytes1 <= bytes2.
Proof.
  intros Hw1 Hl1 Hw2 Hl2 Hle Hmax.
  destruct (UVMResources_limit_bytes spec1 w1 Hw1
              (memory_limit_block w1 limit1 Hl1))
    as (res1 & Hres1 & Hbytes1 & _).
  { rewrite Hl1. cbn [from_option]. unfold is_uint64, MB in *. lia. }
  destruct (UVMResources_limit_bytes spec2 w2 Hw2
              (memory_limit_block w2 limit2 Hl2))
    as (res2 & Hres2 & Hbytes2 & _).
  { rewrite Hl2. cbn [from_option]. unfold is_uint64, MB in *. lia. }
  rewrite Hl1 in Hbytes1. rewrite Hl2 in Hbytes2.
  pose proof (capacity_MB_bounds limit1 ltac:(lia)) as [B1 _].
  pose proof (capacity_MB_bounds limit2 ltac:(lia)) as [B2 _].
  rewrite wrap64_small in Hbytes1 by (unfold is_uint64, MB in *; lia).
  rewrite wrap64_small in Hbytes2 by (unfold is_uint64, MB in *; lia).
  exists res1, res2, (capacity_MB (Some limit1) * MB),
    (capacity_MB (Some limit2) * MB).
  repeat (split; [assumption|]).
  apply Z.mul_le_mono_nonneg_r; [unfold MB; lia|].
  unfold capacity_MB, round_up_512. cbn [from_option].
  apply Z.mul_le_mono_nonneg_r; [lia|].
  apply Z.div_le_mono; [lia|].
  assert (limit1 / MB <= limit2 / MB)
    by (apply Z.div_le_mono; unfold MB; lia).
  lia.
Qed.

End Capacity.

(** ** Capacity planning: outcomes, and the resources as input of the launch *)
Section CapacityOutcome.

Context `{host : Host}.

(** X6. [UVMResourcesFromContainerSpec] returns resources exactly for the
    specifications with a Windows section whose resource block, if any, has
    a memory block; it panics exactly for the nil specification and for a
    resource block without memory block; its only error is "invalid spec",
    exactly for a specification without Windows section. The Linux section
    plays no part. *)
Theorem UVMResources_outcomes (spec : option specs.Spec) :
  ((exists res, UVMResourcesFromContainerSpec spec = Ok res) <->
   exists s w,
     spec = Some s /\ specs.Windows s = Some w /\ memory_block_present w) /\
  (UVMResourcesFromContainerSpec spec = Panic <->
   spec = None \/
   exists s w r,
     spec = Some s /\ specs.Windows s = Some w /\
     specs.Resources w = Some r /\ specs.Memory r = None) /\
  (forall e,
      UVMResourcesFromContainerSpec spec = Fail e <->
      e = fmt_Errorf "invalid spec" [] /\
      exists s, spec = Some s /\ specs.Windows s = None).
Proof.
  destruct spec as [s|].
  2:{ split; [|split].
      - split; [intros [res H]; discriminate H|].
        intros (? & ? & ? & _). discriminate.
      - split; [intros _; left; reflexivity|reflexivity].
      - intros e. split; [discriminate|].
        intros (_ & ? & ? & _). discriminate. }
  destruct (specs.Windows s) as [w|] eqn:Hw.
  2:{ rewrite (UVMResources_no_windows s Hw). split; [|split].
      - split; [intros [res H]; discriminate H|].
        intros (? & ? & [= <-] & ? & _). congruence.
      - split; [discriminate|].
        intros [?|(? & ? & ? & [= <-] & ? & _)]; congruence.
      - intros e. split.
        + intros [= <-]. split; [reflexivity|]. exists s. tauto.
        + intros (-> & _). reflexivity. }
  destruct (specs.Resources w) as [r|] eqn:Hr.
  2:{ assert (memory_block_present w) as Hmem
        by (intros r Hr'; congruence).
      rewrite (UVMResources_present s w Hw Hmem). split; [|split].
      - split; [intros _; exists s, w; tauto|eauto].
      - split; [discriminate|].
        intros [?|(? & ? & ? & [= <-] & Hw' & Hr' & _)]; congruence.
      - intros e. split; [discriminate|].
        intros (_ & ? & [= <-] & ?). congruence. }
  destruct (specs.Memory r) as [m|] eqn:Hm.
  - assert (memory_block_present w) as Hmem
      by (intros r' Hr'; congruence).
    rewrite (UVMResources_present s w Hw Hmem). split; [|split].
    + split; [intros _; exists s, w; tauto|eauto].
    + split; [discriminate|].
      intros [?|(? & ? & ? & [= <-] & Hw' & Hr' & Hm')]; congruence.
    + intros e. split; [discriminate|].
      intros (_ & ? & [= <-] & ?). congruence.
  - assert (UVMResourcesFromContainerSpec (Some s) = Panic) as ->.
    { unfold UVMResourcesFromContainerSpec.
      cbn [notnil negb and_then or_else obind deref].
      rewrite Hw. cbn [notnil negb and_then or_else obind deref].
      rewrite Hr, Hm. reflexivity. }
    split; [|split].
    + split; [intros [res H]; discriminate H|].
      intros (? & w' & [= <-] & Hw' & Hmem).
      assert (w' = w) as -> by congruence.
      destruct (Hmem r Hr Hm).
    + split; [|reflexivity]. intros _. right. exists s, w, r. tauto.
    + intros e. split; [discriminate|].
      intros (_ & ? & [= <-] & ?). congruence.
Qed.


End CapacityOutcome.

(** ** The sandbox disk *)
Section Sandbox.

Context `{host : Host}.

(** X1. [CreateWCOWUVMSandbox] copies the template of the image to
    [sandbox.vhdx] in the destination and then grants the VM access to that
    same file. A failed copy is returned as it is and no access is
    granted; a failed grant is returned as it is, the copy staying in
    place. *)
Theorem CreateWCOWUVMSandbox_outcome
    (imagePath destDirectory vmID : string) t :
  let copy := EvCopyFile (system_template imagePath)
                         (sandbox_vhdx destDirectory) true in
  let grant := EvGrantVmAccess vmID (sandbox_vhdx destDirectory) in
  (forall e,
      CopyFile (system_template imagePath) (sandbox_vhdx destDirectory) true
      = Some e ->
      CreateWCOWUVMSandbox imagePath destDirectory vmID t
      = (Fail e, (t ++ [copy])%list)) /\
  (forall e,
      CopyFile (system_template imagePath) (sandbox_vhdx destDirectory) true
      = None ->
      GrantVmAccess vmID (sandbox_vhdx destDirectory) = Some e ->
      CreateWCOWUVMSandbox imagePath destDirectory vmID t
      = (Fail e, (t ++ [copy; grant])%list)) /\
  (CopyFile (system_template imagePath) (sandbox_vhdx destDirectory) true
   = None ->
   GrantVmAccess vmID (sandbox_vhdx destDirectory) = None ->
   CreateWCOWUVMSandbox imagePath destDirectory vmID t
   = (Ok tt, (t ++ [copy; grant])%list)).
Proof.
  cbv zeta. unfold CreateWCOWUVMSandbox, system_template, sandbox_vhdx.
  split; [|split].
  - intros e Hcopy. unfold bind, call, check_err, fail.
    rewrite Hcopy. reflexivity.
  - intros e Hcopy Hgrant. unfold bind, call, check_err, fail, ret.
    rewrite Hcopy, Hgrant. rewrite <- app_assoc. reflexivity.
  - intros Hcopy Hgrant. unfold bind, call, check_err, fail, ret.
    rewrite Hcopy, Hgrant. rewrite <- app_assoc. reflexivity.
Qed.

End Sandbox.

(** ** The layer scan, outcome by outcome *)
Section Scan.

Context `{host : Host}.

(** A list of layer folders either has no marker anywhere, or has a first
    folder whose check does not report "does not exist". *)
Lemma layers_split (layerFolders : list string) :
  Forall marker_absent layerFolders \/
  exists pre f post,
    layerFolders = (pre ++ f :: post)%list /\
    Forall marker_absent pre /\
    (marker_exists f \/
     exists e, os_Stat (marker f) = Some e /\ os_IsNotExist e = false).
Proof.
  induction layerFolders as [|g rest IH]; [left; constructor|].
  destruct (os_Stat (marker g)) as [e|] eqn:Hstat.
  - destruct (os_IsNotExist e) eqn:Hne.
    + assert (marker_absent g) as Hg by (exists e; tauto).
      destruct IH as [Hall|(pre & f & post & -> & Hpre & Hf)].
      * left. constructor; assumption.
      * right. exists (g :: pre), f, post.
        split; [reflexivity|]. split; [constructor; assumption|exact Hf].
    + right. exists [], g, rest.
      split; [reflexivity|]. split; [constructor|]. right. eauto.
  - right. exists [], g, rest.
    split; [reflexivity|]. split; [constructor|]. left. exact Hstat.
Qed.

(** Every run of the scan is one of three: nothing found; stopped at the
    first folder with the marker; stopped at the first check that failed
    otherwise. *)
Lemma Locate_cases (layerFolders : list string) t :
  (Forall marker_absent layerFolders /\
   LocateWCOWUVMFolderFromLayerFolders layerFolders t
   = (Fail not_found, (t ++ scan_of layerFolders)%list)) \/
  (exists pre f post,
      layerFolders = (pre ++ f :: post)%list /\
      Forall marker_absent pre /\ marker_exists f /\
      LocateWCOWUVMFolderFromLayerFolders layerFolders t
      = (if bool_decide (f = "") then Fail not_found else Ok f,
         (t ++ scan_of (pre ++ [f]))%list)) \/
  (exists pre f post e,
      layerFolders = (pre ++ f :: post)%list /\
      Forall marker_absent pre /\
      os_Stat (marker f) = Some e /\ os_IsNotExist e = false /\
      LocateWCOWUVMFolderFromLayerFolders layerFolders t
      = (Fail e, (t ++ scan_of (pre ++ [f]))%list)).
Proof.
  destruct (layers_split layerFolders)
    as [Hall|(pre & f & post & -> & Hpre & [Hf|(e & Hstat & Hne)])].
  - left. split; [exact Hall|].
    unfold LocateWCOWUVMFolderFromLayerFolders, bind.
    rewrite <- (app_nil_r layerFolders) at 1.
    rewrite (Locate_loop_skip layerFolders [] 0 t Hall). reflexivity.
  - right. left. exists pre, f, post.
    split; [reflexivity|]. split; [exact Hpre|]. split; [exact Hf|].
    unfold LocateWCOWUVMFolderFromLayerFolders, bind.
    rewrite (Locate_loop_stop pre post f t Hpre), Hf.
    destruct (bool_decide (f = "")); reflexivity.
  - right. right. exists pre, f, post, e.
    split; [reflexivity|]. split; [exact Hpre|].
    split; [exact Hstat|]. split; [exact Hne|].
    unfold LocateWCOWUVMFolderFromLayerFolders, bind.
    rewrite (Locate_loop_stop pre post f t Hpre), Hstat, Hne. reflexivity.
Qed.

(** X8. A folder returned by the scan is the first of the list whose check did
    not report "does not exist"; its marker exists, it is not the empty
    path, and the folders up to it are the ones examined. *)
Theorem Locate_Ok_first (layerFolders : list string) t uvmFolder t' :
  LocateWCOWUVMFolderFromLayerFolders layerFolders t = (Ok uvmFolder, t') ->
  exists pre post,
    layerFolders = (pre ++ uvmFolder :: post)%list /\
    Forall marker_absent pre /\
    marker_exists uvmFolder /\
    uvmFolder <> "" /\
    t' = (t ++ scan_of (pre ++ [uvmFolder]))%list.
Proof.
  intros Hrun.
  destruct (Locate_cases layerFolders t)
    as [[_ E]|[(pre & f & post & -> & Hpre & Hf & E)
              |(pre & f & post & e & _ & _ & _ & _ & E)]];
    rewrite E in Hrun; [discriminate| |discriminate].
  destruct (bool_decide (f = "")) eqn:Hempty; [discriminate|].
  apply bool_decide_eq_false in Hempty.
  injection Hrun as -> <-. exists pre, post. tauto.
Qed.

(** X9. An error of the scan is "not found", after every folder was examined
    without finding a marker or after the marker was found under the empty
    path, or it is the error of the first check that failed otherwise. *)
Theorem Locate_Fail_cases (layerFolders : list string) t (e : error) t' :
  LocateWCOWUVMFolderFromLayerFolders layerFolders t = (Fail e, t') ->
  (e = not_found /\ Forall marker_absent layerFolders /\
   t' = (t ++ scan_of layerFolders)%list) \/
  (exists pre post,
      e = not_found /\ layerFolders = (pre ++ "" :: post)%list /\
      Forall marker_absent pre /\ marker_exists "" /\
      t' = (t ++ scan_of (pre ++ [""]))%list) \/
  (exists pre f post,
      layerFolders = (pre ++ f :: post)%list /\
      Forall marker_absent pre /\
      os_Stat (marker f) = Some e /\ os_IsNotExist e = false /\
      t' = (t ++ scan_of (pre ++ [f]))%list).
Proof.
  intros Hrun.
  destruct (Locate_cases layerFolders t)
    as [[Hall E]|[(pre & f & post & -> & Hpre & Hf & E)
                 |(pre & f & post & e' & -> & Hpre & Hstat & Hne & E)]];
    rewrite E in Hrun.
  - injection Hrun as <- <-. left. tauto.
  - destruct (bool_decide (f = "")) eqn:Hempty; [|discriminate].
    apply bool_decide_eq_true in Hempty. subst f.
    injection Hrun as <- <-. right. left. exists pre, post. tauto.
  - injection Hrun as <- <-. right. right. exists pre, f, post. tauto.
Qed.

(** X10. The scan never panics, and whatever its outcome it has examined a
    prefix of the list, in order, each folder once, and made no other
    call. *)
Theorem Locate_examines_prefix (layerFolders : list string) t :
  fst (LocateWCOWUVMFolderFromLayerFolders layerFolders t) <> Panic /\
  exists n,
    (n <= length layerFolders)%nat /\
    snd (LocateWCOWUVMFolderFromLayerFolders layerFolders t)
    = (t ++ scan_of (take n layerFolders))%list.
Proof.
  destruct (Locate_cases layerFolders t)
    as [[_ E]|[(pre & f & post & -> & _ & _ & E)
              |(pre & f & post & e & -> & _ & _ & _ & E)]];
    rewrite E; cbn [fst snd].
  - split; [discriminate|]. exists (length layerFolders).
    split; [reflexivity|]. rewrite firstn_all. reflexivity.
  - split; [destruct (bool_decide (f = "")); discriminate|].
    exists (length (pre ++ [f])). split.
    + rewrite !length_app. cbn [length]. lia.
    + replace (pre ++ f :: post)%list with ((pre ++ [f]) ++ post)%list
        by (rewrite <- app_assoc; reflexivity).
      rewrite take_app_length. reflexivity.
  - split; [discriminate|].
    exists (length (pre ++ [f])). split.
    + rewrite !length_app. cbn [length]. lia.
    + replace (pre ++ f :: post)%list with ((pre ++ [f]) ++ post)%list
        by (rewrite <- app_assoc; reflexivity).
      rewrite take_app_length. reflexivity.
Qed.

End Scan.

(** ** Creating the utility VM, step by step *)
Section Run.

Context `{host : Host}.

Lemma bind_lift_Ok {A B} (a : A) (k : A -> M B) t :
  bind (lift (Ok a)) k t = k a t.
Proof. reflexivity. Qed.

Lemma bind_call {A B} ev (answer : A) (k : A -> M B) t :
  bind (call ev answer) k t = k answer (t ++ [ev])%list.
Proof. reflexivity. Qed.

Lemma bind_ret {A B} (a : A) (k : A -> M B) t :
  bind (ret a) k t = k a t.
Proof. reflexivity. Qed.

Lemma last_index {A} (xs : list A) (x : A) :
  last xs = Some x -> index xs (len xs - 1) = Ok x.
Proof.
  intros Hlast. unfold index, len.
  assert (length xs <> 0%nat) by (destruct xs; [discriminate|cbn; lia]).
  destruct (Z.of_nat (length xs) - 1 <? 0) eqn:C;
    [apply Z.ltb_lt in C; lia|].
  replace (Z.to_nat (Z.of_nat (length xs) - 1)) with (pred (length xs))
    by lia.
  rewrite <- last_lookup, Hlast. reflexivity.
Qed.

(** Lines 156-228, by cases on the answers of the host. *)
Ltac sandbox_steps w :=
  unfold CreateWCOWUVMSandbox, copy_event, grant_event, create_event,
    system_template, sandbox_vhdx, uvm_document, finished;
  unfold bind, on_error, call, check_err, ret, fail, lift;
  destruct (CopyFile _ _ true) as [?|]; [reflexivity|];
  destruct (GrantVmAccess _ _) as [?|];
    [rewrite <- app_assoc; reflexivity|];
  destruct (createWCOWv2UVM_resources w) as [memory processors];
  cbn [fst snd];
  destruct (json_Marshal _) as [uvmb [?|]];
    [rewrite <- app_assoc; reflexivity|];
  destruct (createContainer _ uvmb _) as [[c|] [?|]];
    cbn [deref]; rewrite <- ?app_assoc; cbn [app];
    rewrite ?lookup_insert_eq; reflexivity.

(** The run of [createWCOWv2UVM] once the checks have passed and the scan
    has found the boot-image folder, by the answers of the host. *)
Lemma createWCOWv2UVM_after_scan
    (coi : createOptionsExInternal) (spec : specs.Spec) (w : specs.Windows_t)
    t (uvmFolder : string) t1 (sandboxFolder : string) :
  Spec coi = Some spec ->
  specs.Windows spec = Some w ->
  createWCOWv2UVM_checks coi = Ok tt ->
  LocateWCOWUVMFolderFromLayerFolders (specs.LayerFolders w) t
  = (Ok uvmFolder, t1) ->
  last (specs.LayerFolders w) = Some sandboxFolder ->
  createWCOWv2UVM coi t
  = let t2 := (t1 ++ folder_events sandboxFolder)%list in
    let copy := copy_event uvmFolder sandboxFolder in
    let grant := grant_event coi sandboxFolder in
    match folder_error sandboxFolder with
    | Some e =>
        (Fail (fmt_Errorf "failed to create utility VM sandbox folder: %s"
                          [Error e]), t2)
    | None =>
    match CopyFile (system_template uvmFolder) (sandbox_vhdx sandboxFolder)
                   true with
    | Some e =>
        (Fail (fmt_Errorf "failed to create UVM sandbox: %s" [Error e]),
         (t2 ++ [copy])%list)
    | None =>
    match GrantVmAccess (actualId coi) (sandbox_vhdx sandboxFolder) with
    | Some e =>
        (Fail (fmt_Errorf "failed to create UVM sandbox: %s" [Error e]),
         (t2 ++ [copy; grant])%list)
    | None =>
    match json_Marshal (uvm_document coi w uvmFolder sandboxFolder) with
    | (_, Some e) => (Fail e, (t2 ++ [copy; grant])%list)
    | (uvmb, None) =>
    match createContainer (actualId coi) uvmb schemaversion_SchemaV20 with
    | (_, Some e) =>
        (Fail e, (t2 ++ [copy; grant; create_event coi uvmb])%list)
    | (None, None) =>
        (Panic, (t2 ++ [copy; grant; create_event coi uvmb])%list)
    | (Some c, None) =>
        (Ok (finished c (sandbox_vhdx sandboxFolder)),
         (t2 ++ [copy; grant; create_event coi uvmb])%list)
    end end end end end.
Proof.
  intros Hs Hw Hchecks Hlocate Hlast. cbv zeta.
  unfold createWCOWv2UVM.
  rewrite Hchecks, bind_lift_Ok. rewrite Hs. cbn [deref].
  rewrite bind_lift_Ok. rewrite Hw. cbn [deref]. rewrite bind_lift_Ok.
  unfold bind at 1, on_error at 1. rewrite Hlocate.
  rewrite (last_index _ _ Hlast), bind_lift_Ok, bind_call.
  unfold folder_error, folder_events, sandbox_missing.
  unfold bind at 1.
  destruct (from_option os_IsNotExist false (os_Stat sandboxFolder)).
  - rewrite bind_call.
    destruct (os_MkdirAll sandboxFolder 511) as [e|];
      [unfold check_err, fail; rewrite <- app_assoc; reflexivity|].
    unfold check_err at 1, ret at 1.
    replace ((t1 ++ [EvStat sandboxFolder]) ++ [EvMkdirAll sandboxFolder 511])%list
      with (t1 ++ [EvStat sandboxFolder; EvMkdirAll sandboxFolder 511])%list
      by (rewrite <- app_assoc; reflexivity).
    generalize (t1 ++ [EvStat sandboxFolder; EvMkdirAll sandboxFolder 511])%list.
    intros t2. sandbox_steps w.
  - unfold ret at 1.
    generalize (t1 ++ [EvStat sandboxFolder])%list.
    intros t2. sandbox_steps w.
Qed.

Lemma checks_pass (coi : createOptionsExInternal)
    (spec : specs.Spec) (w : specs.Windows_t) :
  Spec coi = Some spec ->
  specs.Windows spec = Some w ->
  hosting_conditions spec w ->
  createWCOWv2UVM_checks coi = Ok tt.
Proof.
  intros Hs Hw Hc. rewrite (createWCOWv2UVM_checks_eq coi spec w Hs Hw).
  apply violates_none_iff in Hc. rewrite Hc. reflexivity.
Qed.

Lemma createWCOWv2UVM_after_failed_scan
    (coi : createOptionsExInternal) (spec : specs.Spec) (w : specs.Windows_t)
    t (e : error) t1 :
  Spec coi = Some spec ->
  specs.Windows spec = Some w ->
  createWCOWv2UVM_checks coi = Ok tt ->
  LocateWCOWUVMFolderFromLayerFolders (specs.LayerFolders w) t
  = (Fail e, t1) ->
  createWCOWv2UVM coi t
  = (Fail (fmt_Errorf
             "failed to locate utility VM folder from layer folders: %s"
             [Error e]), t1).
Proof.
  intros Hs Hw Hchecks Hlocate. unfold createWCOWv2UVM.
  rewrite Hchecks, bind_lift_Ok. rewrite Hs. cbn [deref].
  rewrite bind_lift_Ok. rewrite Hw. cbn [deref]. rewrite bind_lift_Ok.
  unfold bind at 1, on_error at 1. rewrite Hlocate. reflexivity.
Qed.

(** X11. When the scan of the layer folders fails, [createWCOWv2UVM] fails with
    the scan's error behind "failed to locate utility VM folder from layer
    folders: ", having only examined layer folders: no folder is created,
    nothing is copied and nothing is submitted. *)
Theorem createWCOWv2UVM_scan_fails
    (coi : createOptionsExInternal) (spec : specs.Spec) (w : specs.Windows_t)
    t (e : error) t1 :
  Spec coi = Some spec ->
  specs.Windows spec = Some w ->
  hosting_conditions spec w ->
  LocateWCOWUVMFolderFromLayerFolders (specs.LayerFolders w) t
  = (Fail e, t1) ->
  createWCOWv2UVM coi t
  = (Fail (fmt_Errorf
             "failed to locate utility VM folder from layer folders: %s"
             [Error e]), t1) /\
  exists n, t1 = (t ++ scan_of (take n (specs.LayerFolders w)))%list.
Proof.
  intros Hs Hw Hc Hlocate. split.
  - apply (createWCOWv2UVM_after_failed_scan coi spec w t e t1 Hs Hw
             (checks_pass coi spec w Hs Hw Hc) Hlocate).
  - destruct (Locate_cases (specs.LayerFolders w) t)
      as [[_ E]|[(pre & f & post & Hl & _ & _ & E)
                |(pre & f & post & e' & Hl & _ & _ & _ & E)]];
      rewrite E in Hlocate; injection Hlocate as _ <-.
    + exists (length (specs.LayerFolders w)). rewrite firstn_all.
      reflexivity.
    + exists (length (pre ++ [f])). rewrite Hl.
      replace (pre ++ f :: post)%list with ((pre ++ [f]) ++ post)%list
        by (rewrite <- app_assoc; reflexivity).
      rewrite take_app_length. reflexivity.
    + exists (length (pre ++ [f])). rewrite Hl.
      replace (pre ++ f :: post)%list with ((pre ++ [f]) ++ post)%list
        by (rewrite <- app_assoc; reflexivity).
      rewrite take_app_length. reflexivity.
Qed.

End Run.

(** ** Creating the utility VM, after a successful scan *)
Section AfterScan.

Context `{host : Host}.

Variables (coi : createOptionsExInternal) (spec : specs.Spec)
          (w : specs.Windows_t) (t t1 : list Event)
          (uvmFolder sandboxFolder : string).

Hypothesis spec_present : Spec coi = Some spec.
Hypothesis windows_present : specs.Windows spec = Some w.
Hypothesis spec_fits : hosting_conditions spec w.
Hypothesis scan_found :
  LocateWCOWUVMFolderFromLayerFolders (specs.LayerFolders w) t
  = (Ok uvmFolder, t1).
Hypothesis sandbox_last : last (specs.LayerFolders w) = Some sandboxFolder.

Local Abbreviation run_eq :=
  (createWCOWv2UVM_after_scan coi spec w t uvmFolder t1 sandboxFolder
     spec_present windows_present
     (checks_pass coi spec w spec_present windows_present spec_fits)
     scan_found sandbox_last).

Local Ltac by_answers :=
  rewrite run_eq; cbv zeta; unfold folder_error, folder_events;
  repeat match goal with
         | H : _ = _ |- _ => rewrite H
         end;
  repeat match goal with
         | |- context [match ?x with _ => _ end] => destruct x
         end;
  cbn [fst snd]; try eexists;
  rewrite <- ?app_assoc; cbn [app]; reflexivity.

(** X12. The sandbox folder is created exactly when [os.Stat] reports that it
    does not exist: if it exists, or if [os.Stat] fails in another way, the
    copy of the template is the next call; if it is missing it is created
    first; and if creating it fails, [createWCOWv2UVM] fails with that
    error behind "failed to create utility VM sandbox folder: " and calls
    nothing else. *)
Theorem createWCOWv2UVM_sandbox_folder :
  (sandbox_missing sandboxFolder = false ->
   exists rest,
     snd (createWCOWv2UVM coi t)
     = (t1 ++ EvStat sandboxFolder
           :: copy_event uvmFolder sandboxFolder :: rest)%list) /\
  (sandbox_missing sandboxFolder = true ->
   os_MkdirAll sandboxFolder 511 = None ->
   exists rest,
     snd (createWCOWv2UVM coi t)
     = (t1 ++ EvStat sandboxFolder :: EvMkdirAll sandboxFolder 511
           :: copy_event uvmFolder sandboxFolder :: rest)%list) /\
  (forall e,
      sandbox_missing sandboxFolder = true ->
      os_MkdirAll sandboxFolder 511 = Some e ->
      createWCOWv2UVM coi t
      = (Fail (fmt_Errorf "failed to create utility VM sandbox folder: %s"
                          [Error e]),
         (t1 ++ [EvStat sandboxFolder; EvMkdirAll sandboxFolder 511])%list)).
Proof.
  split; [|split].
  - intros Hmissing. by_answers.
  - intros Hmissing Hmkdir. by_answers.
  - intros e Hmissing Hmkdir. by_answers.
Qed.

(** X13. When the copy of the template or the grant of access fails,
    [createWCOWv2UVM] fails with that error behind "failed to create UVM
    sandbox: ", and nothing is submitted to [createContainer]; the sandbox
    folder, if it was created, stays. *)
Theorem createWCOWv2UVM_sandbox_fails (e : error) :
  folder_error sandboxFolder = None ->
  (CopyFile (system_template uvmFolder) (sandbox_vhdx sandboxFolder) true
   = Some e ->
   createWCOWv2UVM coi t
   = (Fail (fmt_Errorf "failed to create UVM sandbox: %s" [Error e]),
      (t1 ++ folder_events sandboxFolder
          ++ [copy_event uvmFolder sandboxFolder])%list)) /\
  (CopyFile (system_template uvmFolder) (sandbox_vhdx sandboxFolder) true
   = None ->
   GrantVmAccess (actualId coi) (sandbox_vhdx sandboxFolder) = Some e ->
   createWCOWv2UVM coi t
   = (Fail (fmt_Errorf "failed to create UVM sandbox: %s" [Error e]),
      (t1 ++ folder_events sandboxFolder
          ++ [copy_event uvmFolder sandboxFolder;
              grant_event coi sandboxFolder])%list)).
Proof.
  intros Hfolder. split.
  - intros Hcopy. rewrite run_eq. cbv zeta. rewrite Hfolder, Hcopy.
    rewrite <- app_assoc. reflexivity.
  - intros Hcopy Hgrant. rewrite run_eq. cbv zeta.
    rewrite Hfolder, Hcopy, Hgrant. rewrite <- app_assoc. reflexivity.
Qed.

(** X14. A failure of [json.Marshal] or of [createContainer] is returned as it
    is, without a prefix; with the first nothing is submitted, and in both
    cases the sandbox disk that was prepared stays. *)
Theorem createWCOWv2UVM_submission_fails (e : error) (uvmb : string) :
  folder_error sandboxFolder = None ->
  CopyFile (system_template uvmFolder) (sandbox_vhdx sandboxFolder) true
  = None ->
  GrantVmAccess (actualId coi) (sandbox_vhdx sandboxFolder) = None ->
  (json_Marshal (uvm_document coi w uvmFolder sandboxFolder)
   = (uvmb, Some e) ->
   createWCOWv2UVM coi t
   = (Fail e,
      (t1 ++ folder_events sandboxFolder
          ++ [copy_event uvmFolder sandboxFolder;
              grant_event coi sandboxFolder])%list)) /\
  (forall c,
      json_Marshal (uvm_document coi w uvmFolder sandboxFolder)
      = (uvmb, None) ->
      createContainer (actualId coi) uvmb schemaversion_SchemaV20
      = (c, Some e) ->
      createWCOWv2UVM coi t
      = (Fail e,
         (t1 ++ folder_events sandboxFolder
             ++ [copy_event uvmFolder sandboxFolder;
                 grant_event coi sandboxFolder;
                 create_event coi uvmb])%list)).
Proof.
  intros Hfolder Hcopy Hgrant. split.
  - intros Hmarshal. rewrite run_eq. cbv zeta.
    rewrite Hfolder, Hcopy, Hgrant, Hmarshal.
    rewrite <- app_assoc. reflexivity.
  - intros c Hmarshal Hcreate. rewrite run_eq. cbv zeta.
    rewrite Hfolder, Hcopy, Hgrant, Hmarshal, Hcreate.
    rewrite <- app_assoc. destruct c; reflexivity.
Qed.

(** X15. When every step succeeds, [createWCOWv2UVM] returns the handle of
    [createContainer] marked as a Windows guest, with the sandbox disk
    recorded in slot [0][0] of its SCSI locations and the other slots as
    they were; the document is submitted last, after the copy and the
    grant. *)
Theorem createWCOWv2UVM_succeeds (uvmb : string) (c : container) :
  folder_error sandboxFolder = None ->
  CopyFile (system_template uvmFolder) (sandbox_vhdx sandboxFolder) true
  = None ->
  GrantVmAccess (actualId coi) (sandbox_vhdx sandboxFolder) = None ->
  json_Marshal (uvm_document coi w uvmFolder sandboxFolder) = (uvmb, None) ->
  createContainer (actualId coi) uvmb schemaversion_SchemaV20
  = (Some c, None) ->
  exists uvmContainer,
    createWCOWv2UVM coi t
    = (Ok uvmContainer,
       (t1 ++ folder_events sandboxFolder
           ++ [copy_event uvmFolder sandboxFolder;
               grant_event coi sandboxFolder;
               create_event coi uvmb])%list) /\
    operatingSystem uvmContainer = "windows" /\
    scsiLocations_hostPath uvmContainer 0 0
    = filepath_Join sandboxFolder "sandbox.vhdx" /\
    forall i j,
      (i <> 0 \/ j <> 0)%nat ->
      scsiLocations_hostPath uvmContainer i j = scsiLocations_hostPath c i j.
Proof.
  intros Hfolder Hcopy Hgrant Hmarshal Hcreate.
  exists (finished c (sandbox_vhdx sandboxFolder)). split.
  - rewrite run_eq. cbv zeta.
    rewrite Hfolder, Hcopy, Hgrant, Hmarshal, Hcreate.
    rewrite <- app_assoc. reflexivity.
  - split; [reflexivity|]. split; [reflexivity|].
    intros [|i] [|j] Hij; try reflexivity. lia.
Qed.

End AfterScan.

(** ** Creating the utility VM: no index out of range *)
Section NoPanic.

Context `{host : Host}.

(** X16. With the specification and its Windows section present,
    [createWCOWv2UVM] does not panic: the checks guarantee the last layer
    folder that line 144 indexes, and the scan does not panic. The one
    exception is the type assertion of line 226, should [createContainer]
    return a nil handle with a nil error. *)
Theorem createWCOWv2UVM_no_panic
    (coi : createOptionsExInternal) (spec : specs.Spec) (w : specs.Windows_t)
    t :
  Spec coi = Some spec ->
  specs.Windows spec = Some w ->
  (forall id doc sv, createContainer id doc sv <> (None, None)) ->
  fst (createWCOWv2UVM coi t) <> Panic.
Proof.
  intros Hs Hw Hcreate.
  pose proof (createWCOWv2UVM_checks_eq coi spec w Hs Hw) as Hchecks.
  destruct (first_violation spec w) as [v|] eqn:Hv.
  - unfold createWCOWv2UVM, bind at 1, lift at 1. rewrite Hchecks.
    discriminate.
  - pose proof (proj1 (violates_none_iff spec w) Hv) as Hfit.
    destruct (last (specs.LayerFolders w)) as [sandboxFolder|] eqn:Hlast.
    2:{ apply last_None in Hlast. destruct Hfit as [Hlen _].
        rewrite Hlast in Hlen. unfold len in Hlen. cbn in Hlen. lia. }
    destruct (LocateWCOWUVMFolderFromLayerFolders (specs.LayerFolders w) t)
      as [[uvmFolder|e|] t1] eqn:Hlocate.
    + rewrite (createWCOWv2UVM_after_scan coi spec w t uvmFolder t1
                 sandboxFolder Hs Hw Hchecks Hlocate Hlast).
      cbv zeta.
      destruct (folder_error sandboxFolder); [discriminate|].
      destruct (CopyFile _ _ true); [discriminate|].
      destruct (GrantVmAccess _ _); [discriminate|].
      destruct (json_Marshal _) as [uvmb [?|]]; [discriminate|].
      destruct (createContainer _ uvmb _) as [[c|] [?|]] eqn:Hc;
        try discriminate.
      destruct (Hcreate _ _ _ Hc).
    + rewrite (createWCOWv2UVM_after_failed_scan coi spec w t e t1
                 Hs Hw Hchecks Hlocate).
      discriminate.
    + destruct (Locate_cases (specs.LayerFolders w) t)
        as [[_ E]|[(pre & f & post & _ & _ & _ & E)
                  |(pre & f & post & e & _ & _ & _ & _ & E)]];
        rewrite E in Hlocate; [discriminate| |discriminate].
      destruct (bool_decide (f = "")); discriminate.
Qed.

End NoPanic.

(** ** The further properties at concrete specifications *)
Section FurtherConcrete.

Import Examples Failures.

Lemma hosting_spec_fits : hosting_conditions hosting_spec hosting_windows.
Proof.
  unfold hosting_conditions.
  split; [vm_compute; discriminate|]. repeat split; reflexivity.
Defined.

Lemma memory_limit_range (lo bytes hi : Z) :
  (lo <=? bytes) = true -> (bytes <? hi) = true -> lo <= bytes < hi.
Proof. intros H1 H2. split; [apply Z.leb_le, H1|apply Z.ltb_lt, H2]. Defined.

(** A failed copy: no access is granted. *)
Lemma CreateWCOWUVMSandbox_copy_fails :
  @CreateWCOWUVMSandbox (host_fresh None (Some ERROR_DISK_FULL) None None None)
    "C:\layers\B" "C:\layers\sandbox" "uvm-1" []
  = (Fail ERROR_DISK_FULL,
     [EvCopyFile "C:\layers\B\UtilityVM\SystemTemplate.vhdx"
        "C:\layers\sandbox\sandbox.vhdx" true]).
Proof.
  apply (CreateWCOWUVMSandbox_outcome
           (host := host_fresh None (Some ERROR_DISK_FULL) None None None)
           "C:\layers\B" "C:\layers\sandbox" "uvm-1" []).
  reflexivity.
Defined.

(** The largest limit: the result wraps to 512 MB, a whole unit. *)
Lemma UVMResources_memory_granularity_max :
  exists res bytes,
    @UVMResourcesFromContainerSpec host2
      (Some (spec_with None (Some (windows_limit (2 ^ 64 - 1))))) = Ok res /\
    specs.Memory res = Some {| specs.Limit := Some bytes |} /\
    bytes mod (512 * MB) = 0 /\
    is_uint64 bytes.
Proof.
  apply (UVMResources_memory_granularity (host := host2)
           (spec_with None (Some (windows_limit (2 ^ 64 - 1))))
           (windows_limit (2 ^ 64 - 1)) eq_refl
           (memory_block_present_limit _)).
  apply (memory_limit_range 0 (2 ^ 64 - 1) (2 ^ 64)); reflexivity.
Defined.

(** A limit of 1 GiB. *)
Lemma UVMResources_headroom_1GiB :
  exists res bytes,
    @UVMResourcesFromContainerSpec host2
      (Some (spec_with None (Some (windows_limit (1024 * MB))))) = Ok res /\
    specs.Memory res = Some {| specs.Limit := Some bytes |} /\
    1024 * MB + 255 * MB < bytes <= 1024 * MB + 767 * MB /\
    512 * MB <= bytes.
Proof.
  apply (UVMResources_headroom (host := host2)
           (spec_with None (Some (windows_limit (1024 * MB))))
           (windows_limit (1024 * MB)) (1024 * MB) eq_refl eq_refl).
  apply (memory_limit_range 0 (1024 * MB) (2 ^ 64 - 767 * MB)); reflexivity.
Defined.

(** The largest limit wraps. *)
Lemma UVMResources_memory_wraps_max :
  exists res bytes,
    @UVMResourcesFromContainerSpec host2
      (Some (spec_with None (Some (windows_limit (2 ^ 64 - 1))))) = Ok res /\
    specs.Memory res = Some {| specs.Limit := Some bytes |} /\
    (bytes = 0 \/ bytes = 512 * MB).
Proof.
  apply (UVMResources_memory_wraps (host := host2)
           (spec_with None (Some (windows_limit (2 ^ 64 - 1))))
           (windows_limit (2 ^ 64 - 1)) (2 ^ 64 - 1) eq_refl eq_refl).
  apply (memory_limit_range (2 ^ 64 - 767 * MB) (2 ^ 64 - 1) (2 ^ 64));
    reflexivity.
Defined.

(** Limits of 1 MB and of 768 MB. *)
Lemma UVMResources_memory_monotone_example :
  exists res1 res2 bytes1 bytes2,
    @UVMResourcesFromContainerSpec host2
      (Some (spec_with None (Some (windows_limit (1 * MB))))) = Ok res1 /\
    @UVMResourcesFromContainerSpec host2
      (Some (spec_with None (Some (windows_limit (768 * MB))))) = Ok res2 /\
    specs.Memory res1 = Some {| specs.Limit := Some bytes1 |} /\
    specs.Memory res2 = Some {| specs.Limit := Some bytes2 |} /\
    bytes1 <= bytes2.
Proof.
  apply (UVMResources_memory_monotone (host := host2)
           (spec_with None (Some (windows_limit (1 * MB))))
           (spec_with None (Some (windows_limit (768 * MB))))
           (windows_limit (1 * MB)) (windows_limit (768 * MB))
           (1 * MB) (768 * MB) eq_refl eq_refl eq_refl eq_refl).
  - split; vm_compute; discriminate.
  - reflexivity.
Defined.

(** A specification with a Linux section and a Windows section is given
    resources. *)
Lemma UVMResources_outcomes_lcow :
  exists res, @UVMResourcesFromContainerSpec host2 (Some spec_lcow) = Ok res.
Proof.
  apply (UVMResources_outcomes (host := host2) (Some spec_lcow)).
  exists spec_lcow, (windows_with layers None).
  split; [reflexivity|]. split; [reflexivity|].
  intros r Hr. discriminate Hr.
Defined.


(** The scan over [layers] returns B, the second folder. *)
Lemma Locate_Ok_first_layers :
  exists pre post,
    layers = (pre ++ "C:\layers\B" :: post)%list /\
    Forall (@marker_absent host2) pre /\
    @marker_exists host2 "C:\layers\B" /\
    "C:\layers\B" <> "" /\
    scan_B = ([] ++ @scan_of host2 (pre ++ ["C:\layers\B"]))%list.
Proof.
  apply (Locate_Ok_first (host := host2) layers [] "C:\layers\B" scan_B).
  reflexivity.
Defined.

(** The scan stopped by an access error on layer A. *)
Lemma Locate_Fail_cases_denied :
  (ERROR_ACCESS_DENIED = not_found /\
   Forall (@marker_absent host_denied) layers /\
   [EvStat "C:\layers\A\UtilityVM"]
   = ([] ++ @scan_of host_denied layers)%list) \/
  (exists pre post,
      ERROR_ACCESS_DENIED = not_found /\
      layers = (pre ++ "" :: post)%list /\
      Forall (@marker_absent host_denied) pre /\
      @marker_exists host_denied "" /\
      [EvStat "C:\layers\A\UtilityVM"]
      = ([] ++ @scan_of host_denied (pre ++ [""]))%list) \/
  (exists pre f post,
      layers = (pre ++ f :: post)%list /\
      Forall (@marker_absent host_denied) pre /\
      @os_Stat host_denied (@marker host_denied f)
      = Some ERROR_ACCESS_DENIED /\
      os_IsNotExist ERROR_ACCESS_DENIED = false /\
      [EvStat "C:\layers\A\UtilityVM"]
      = ([] ++ @scan_of host_denied (pre ++ [f]))%list).
Proof.
  apply (Locate_Fail_cases (host := host_denied) layers []
           ERROR_ACCESS_DENIED [EvStat "C:\layers\A\UtilityVM"]).
  reflexivity.
Defined.

(** The scan over [layers] examines the first two folders. *)
Lemma Locate_examines_prefix_layers :
  fst (@LocateWCOWUVMFolderFromLayerFolders host2 layers []) <> Panic /\
  exists n,
    (n <= length layers)%nat /\
    snd (@LocateWCOWUVMFolderFromLayerFolders host2 layers [])
    = ([] ++ @scan_of host2 (take n layers))%list.
Proof. apply (Locate_examines_prefix (host := host2) layers []). Defined.

(** No layer carries a boot image: the error of the scan is wrapped and
    only the three layers were examined. *)
Lemma createWCOWv2UVM_scan_fails_no_image :
  @createWCOWv2UVM host_no_image hosting_options []
  = (Fail {| Error := "failed to locate utility VM folder from layer folders: utility VM folder could not be found in layers";
             os_IsNotExist := false |},
     [EvStat "C:\layers\A\UtilityVM"; EvStat "C:\layers\B\UtilityVM";
      EvStat "C:\layers\sandbox\UtilityVM"]).
Proof.
  apply (createWCOWv2UVM_scan_fails (host := host_no_image)
           hosting_options hosting_spec hosting_windows [] not_found
           [EvStat "C:\layers\A\UtilityVM"; EvStat "C:\layers\B\UtilityVM";
            EvStat "C:\layers\sandbox\UtilityVM"]
           eq_refl eq_refl hosting_spec_fits eq_refl).
Defined.

(** The sandbox folder is missing and cannot be created. *)
Lemma createWCOWv2UVM_sandbox_folder_denied :
  @createWCOWv2UVM
    (host_fresh (Some ERROR_ACCESS_DENIED) None None None None)
    hosting_options []
  = (Fail {| Error := "failed to create utility VM sandbox folder: Access is denied.";
             os_IsNotExist := false |},
     (scan_B ++ [EvStat "C:\layers\sandbox";
                 EvMkdirAll "C:\layers\sandbox" 511])%list).
Proof.
  apply (proj2 (proj2 (createWCOWv2UVM_sandbox_folder
           (host := host_fresh (Some ERROR_ACCESS_DENIED) None None None None)
           hosting_options hosting_spec hosting_windows [] scan_B
           "C:\layers\B" "C:\layers\sandbox"
           eq_refl eq_refl hosting_spec_fits eq_refl eq_refl))
           ERROR_ACCESS_DENIED);
    reflexivity.
Defined.

(** The disk is full: the copy fails and nothing is submitted. *)
Lemma createWCOWv2UVM_sandbox_fails_disk_full :
  @createWCOWv2UVM
    (host_fresh None (Some ERROR_DISK_FULL) None None None)
    hosting_options []
  = (Fail {| Error := "failed to create UVM sandbox: There is not enough space on the disk.";
             os_IsNotExist := false |},
     (scan_B ++ [EvStat "C:\layers\sandbox";
                 EvMkdirAll "C:\layers\sandbox" 511;
                 EvCopyFile "C:\layers\B\UtilityVM\SystemTemplate.vhdx"
                   "C:\layers\sandbox\sandbox.vhdx" true])%list).
Proof.
  apply (createWCOWv2UVM_sandbox_fails
           (host := host_fresh None (Some ERROR_DISK_FULL) None None None)
           hosting_options hosting_spec hosting_windows [] scan_B
           "C:\layers\B" "C:\layers\sandbox"
           eq_refl eq_refl hosting_spec_fits eq_refl eq_refl
           ERROR_DISK_FULL eq_refl).
  reflexivity.
Defined.

(** [createContainer] fails: its error comes back as it is. *)
Lemma createWCOWv2UVM_submission_fails_create :
  @createWCOWv2UVM
    (host_fresh None None None None (Some ERROR_ACCESS_DENIED))
    hosting_options []
  = (Fail ERROR_ACCESS_DENIED,
     (scan_B ++ [EvStat "C:\layers\sandbox";
                 EvMkdirAll "C:\layers\sandbox" 511;
                 EvCopyFile "C:\layers\B\UtilityVM\SystemTemplate.vhdx"
                   "C:\layers\sandbox\sandbox.vhdx" true;
                 EvGrantVmAccess "uvm-1" "C:\layers\sandbox\sandbox.vhdx";
                 EvCreateContainer "uvm-1" "{}"
                   {| schemaversion.Major := 2;
                      schemaversion.Minor := 0 |}])%list).
Proof.
  apply (proj2 (createWCOWv2UVM_submission_fails
           (host := host_fresh None None None None (Some ERROR_ACCESS_DENIED))
           hosting_options hosting_spec hosting_windows [] scan_B
           "C:\layers\B" "C:\layers\sandbox"
           eq_refl eq_refl hosting_spec_fits eq_refl eq_refl
           ERROR_ACCESS_DENIED "{}" eq_refl eq_refl eq_refl) None);
    reflexivity.
Defined.

(** Every step succeeds on a fresh sandbox folder. *)
Lemma createWCOWv2UVM_succeeds_fresh :
  exists uvmContainer,
    @createWCOWv2UVM (host_fresh None None None None None) hosting_options []
    = (Ok uvmContainer,
       (scan_B ++ [EvStat "C:\layers\sandbox";
                   EvMkdirAll "C:\layers\sandbox" 511;
                   EvCopyFile "C:\layers\B\UtilityVM\SystemTemplate.vhdx"
                     "C:\layers\sandbox\sandbox.vhdx" true;
                   EvGrantVmAccess "uvm-1" "C:\layers\sandbox\sandbox.vhdx";
                   EvCreateContainer "uvm-1" "{}"
                     {| schemaversion.Major := 2;
                        schemaversion.Minor := 0 |}])%list) /\
    operatingSystem uvmContainer = "windows" /\
    scsiLocations_hostPath uvmContainer 0 0
    = "C:\layers\sandbox\sandbox.vhdx".
Proof.
  destruct (createWCOWv2UVM_succeeds
              (host := host_fresh None None None None None)
              hosting_options hosting_spec hosting_windows [] scan_B
              "C:\layers\B" "C:\layers\sandbox"
              eq_refl eq_refl hosting_spec_fits eq_refl eq_refl
              "{}" {| scsiLocations_hostPath := fun _ _ => "";
                      operatingSystem := "" |}
              eq_refl eq_refl eq_refl eq_refl eq_refl)
    as (uvmContainer & Hrun & Hos & Hpath & _).
  exists uvmContainer. split; [exact Hrun|]. split; [exact Hos|exact Hpath].
Defined.

(** The run over [layers] does not panic. *)
Lemma createWCOWv2UVM_no_panic_layers :
  fst (@createWCOWv2UVM host2 hosting_options []) <> Panic.
Proof.
  apply (createWCOWv2UVM_no_panic (host := host2)
           hosting_options hosting_spec hosting_windows []
           eq_refl eq_refl).
  intros id doc sv. discriminate.
Defined.

End FurtherConcrete.
